(** * EloqDB converged server: lifecycle coordinator and shutdown controller

    A shallow embedding of the converged entry point (the translation unit
    that defines [SignalHandler], [CleanupComponents] and [main]).

    The program is written against three process-wide objects
    ([g_shutdown_requested], [g_init_state] and the engine handles) and a
    number of collaborators it only calls (the data substrate, the Redis
    service, the brpc server, mysqld, glog).  The embedding keeps the globals
    as an explicit record that every function threads through, and records
    each call to a collaborator as an event of a chronological trace.  What a
    collaborator answers is read from an [Environment].

    Scope.  [main] is followed on the main thread.  The thread it spawns
    runs beside it: the trace of [main] records its spawn and its join, and
    what the thread itself does is a trace of its own
    ([eloqsql_thread_body]).  Signals are
    delivered to [SignalHandler] one after the other, and in a run of [main]
    while it is blocked in [RunUntilAskedToQuit]; [SignalHandler] and
    [CleanupComponents] themselves are modelled for every process state. *)

From Stdlib Require Import ZArith List Ascii String Bool Lia.
Import ListNotations.

Local Open Scope string_scope.
Local Open Scope list_scope.
Local Open Scope Z_scope.

(** ** Conditional compilation

    The source selects its engines with preprocessor symbols; a build is a
    choice of which symbols are defined.  As the file stands,
    [struct InitState] names the key-value service type, which only the
    headers included under [ELOQ_MODULE_ELOQKV] declare: the builds that
    compile are those with that symbol. *)

Record BuildConfig : Type := mkBuild {
  ELOQ_MODULE_ELOQKV : bool;
  ELOQ_MODULE_ELOQSQL : bool;
  ELOQ_MODULE_ELOQDOC : bool;
  BRPC_WITH_GLOG : bool
}.

(** The converged binary of the file header: both engines and glog. *)
Definition converged : BuildConfig := mkBuild true true false true.

(** ** Collaborator calls *)

Inductive TableEngine : Type := EloqSql | EloqKv | EloqDoc.

Inductive Severity : Type := INFO | ERROR.

(** Operands of a [<<] chain. *)
Inductive Part : Type :=
| Str (s : string)
| Num (n : Z).

(** Object identities handed out by [std::make_unique]. *)
Definition Addr : Type := nat.

Inductive Event : Type :=
| EvSetVersionString (version : string)
| EvParseCommandLineFlags
| EvInitGoogleLogging
| EvCout (line : list Part)
| EvLog (sev : Severity) (msg : list Part)
| EvSignal (signo : Z)
| EvDataSubstrateInit (config : string)
| EvEnableEngine (kind : TableEngine)
| EvThreadSpawn
| EvMysqldMain
| EvMakeServer (server : Addr)
| EvMakeService (service : Addr) (config version : string)
| EvGetCommandLineOption (name : string)
| EvServiceInit (service server : Addr)
| EvWaitForEnabledEnginesRegistered (timeout_ms : Z)
| EvDataSubstrateStart
| EvServiceStart (service server : Addr)
| EvServerStart (server : Addr) (ip_port : string) (num_threads : Z)
                (redis_service : option Addr)
| EvGetAcceptor (server : Addr)
| EvRunUntilAskedToQuit (server : Addr)
| EvDataSubstrateShutdown
| EvServiceStop (service : Addr)
| EvServiceDelete (service : Addr)
| EvServerDelete (server : Addr)
| EvShutdownMysqld
| EvThreadJoin
| EvShutdownGoogleLogging.

(** ** Process-wide state *)

(** [struct InitState]. *)
Record InitState : Type := mkInitState {
  data_substrate_init : bool;
  eloqkv_init : bool;
  eloqsql_thread_started : bool;
  eloqkv_service_ptr : option Addr
}.

(** [std::thread]: default-constructed, or running [mysqld_main]. *)
Inductive std_thread : Type :=
| not_a_thread
| thread_mysqld_main.

Definition joinable (t : std_thread) : bool :=
  match t with
  | not_a_thread => false
  | thread_mysqld_main => true
  end.

Record Process : Type := mkProcess {
  g_shutdown_requested : bool;
  g_init_state : InitState;
  g_eloqkv_server : option Addr;
  g_eloqkv_service : option Addr;
  g_eloqsql_thread : std_thread;
  trace : list Event
}.

(** Static initialisation of the globals. *)
Definition initial_init_state : InitState :=
  mkInitState false false false None.

Definition initial_process : Process :=
  mkProcess false initial_init_state None None not_a_thread [].

(** *** Assignments to the globals *)

Definition set_data_substrate_init (v : bool) (s : Process) : Process :=
  let i := g_init_state s in
  mkProcess (g_shutdown_requested s)
    (mkInitState v (eloqkv_init i) (eloqsql_thread_started i)
       (eloqkv_service_ptr i))
    (g_eloqkv_server s) (g_eloqkv_service s) (g_eloqsql_thread s) (trace s).

Definition set_eloqkv_init (v : bool) (s : Process) : Process :=
  let i := g_init_state s in
  mkProcess (g_shutdown_requested s)
    (mkInitState (data_substrate_init i) v (eloqsql_thread_started i)
       (eloqkv_service_ptr i))
    (g_eloqkv_server s) (g_eloqkv_service s) (g_eloqsql_thread s) (trace s).

Definition set_eloqsql_thread_started (v : bool) (s : Process) : Process :=
  let i := g_init_state s in
  mkProcess (g_shutdown_requested s)
    (mkInitState (data_substrate_init i) (eloqkv_init i) v
       (eloqkv_service_ptr i))
    (g_eloqkv_server s) (g_eloqkv_service s) (g_eloqsql_thread s) (trace s).

Definition set_eloqkv_service_ptr (v : option Addr) (s : Process) : Process :=
  let i := g_init_state s in
  mkProcess (g_shutdown_requested s)
    (mkInitState (data_substrate_init i) (eloqkv_init i)
       (eloqsql_thread_started i) v)
    (g_eloqkv_server s) (g_eloqkv_service s) (g_eloqsql_thread s) (trace s).

Definition set_g_shutdown_requested (v : bool) (s : Process) : Process :=
  mkProcess v (g_init_state s) (g_eloqkv_server s) (g_eloqkv_service s)
    (g_eloqsql_thread s) (trace s).

Definition set_g_eloqkv_server (v : option Addr) (s : Process) : Process :=
  mkProcess (g_shutdown_requested s) (g_init_state s) v (g_eloqkv_service s)
    (g_eloqsql_thread s) (trace s).

Definition set_g_eloqkv_service (v : option Addr) (s : Process) : Process :=
  mkProcess (g_shutdown_requested s) (g_init_state s) (g_eloqkv_server s) v
    (g_eloqsql_thread s) (trace s).

Definition set_g_eloqsql_thread (v : std_thread) (s : Process) : Process :=
  mkProcess (g_shutdown_requested s) (g_init_state s) (g_eloqkv_server s)
    (g_eloqkv_service s) v (trace s).

(** A call to a collaborator is appended to the trace. *)
Definition call (e : Event) (s : Process) : Process :=
  mkProcess (g_shutdown_requested s) (g_init_state s) (g_eloqkv_server s)
    (g_eloqkv_service s) (g_eloqsql_thread s) (trace s ++ [e]).

Definition LOG (sev : Severity) (msg : list Part) : Process -> Process :=
  call (EvLog sev msg).

(** ** The shutdown controller *)

(** [std::unique_ptr<T>::reset()]: deletes the pointee, if any. *)
Definition reset_g_eloqkv_service (s : Process) : Process :=
  match g_eloqkv_service s with
  | Some p => set_g_eloqkv_service None (call (EvServiceDelete p) s)
  | None => s
  end.

Definition reset_g_eloqkv_server (s : Process) : Process :=
  match g_eloqkv_server s with
  | Some q => set_g_eloqkv_server None (call (EvServerDelete q) s)
  | None => s
  end.

(** [void CleanupComponents()]. *)
Definition CleanupComponents (b : BuildConfig) (s : Process) : Process :=
  (* DataSubstrate cleanup (only if Init() succeeded) *)
  let s :=
    if data_substrate_init (g_init_state s) then
      let s := LOG INFO [Str "Shutting down DataSubstrate"] s in
      let s := call EvDataSubstrateShutdown s in
      let s := LOG INFO [Str "DataSubstrate shut down"] s in
      set_data_substrate_init false s
    else s in
  (* #ifdef ELOQ_MODULE_ELOQKV *)
  let s :=
    if ELOQ_MODULE_ELOQKV b then
      let s :=
        match eloqkv_init (g_init_state s),
              eloqkv_service_ptr (g_init_state s) with
        | true, Some p =>
            let s := LOG INFO [Str "Stopping EloqKV service"] s in
            let s := call (EvServiceStop p) s in
            let s := LOG INFO [Str "EloqKV service stopped"] s in
            set_eloqkv_init false s
        | _, _ => s
        end in
      let s := reset_g_eloqkv_service s in
      let s := reset_g_eloqkv_server s in
      let s := set_eloqkv_service_ptr None s in
      set_eloqkv_init false s
    else s in
  (* #ifdef ELOQ_MODULE_ELOQSQL *)
  let s :=
    if ELOQ_MODULE_ELOQSQL b then
      if eloqsql_thread_started (g_init_state s) then
        let s := LOG INFO [Str "Shutting down EloqSQL server"] s in
        let s := call EvShutdownMysqld s in
        let s :=
          if joinable (g_eloqsql_thread s) then
            let s := LOG INFO [Str "Joining EloqSQL thread"] s in
            let s := set_g_eloqsql_thread not_a_thread (call EvThreadJoin s) in
            LOG INFO [Str "EloqSQL thread joined"] s
          else s in
        set_eloqsql_thread_started false s
      else s
    else s in
  s.

(** [std::atomic<bool>::compare_exchange_strong(expected, desired)] on a
    current value: whether the exchange happened, and the value stored. *)
Definition compare_exchange_strong (current expected desired : bool)
  : bool * bool :=
  if Bool.eqb current expected then (true, desired) else (false, current).

(** [void SignalHandler(int signal)]. *)
Definition SignalHandler (b : BuildConfig) (signal : Z) (s : Process)
  : Process :=
  let expected := false in
  let '(exchanged, stored) :=
    compare_exchange_strong (g_shutdown_requested s) expected true in
  let s := set_g_shutdown_requested stored s in
  if negb exchanged then
    (* Already shutting down, ignore this signal *)
    s
  else
    let s :=
      LOG INFO [Str "Received signal "; Num signal;
                Str ", initiating shutdown..."] s in
    let s := CleanupComponents b s in
    LOG INFO [Str "Shutdown complete"] s.

(** Signals delivered one after the other. *)
Definition deliver (b : BuildConfig) (signals : list Z) (s : Process)
  : Process :=
  fold_left (fun s signal => SignalHandler b signal s) signals s.

(** ** The coordinator

    [main] is straight-line code with two ways out of the start-up
    sequence: [return] and [goto cleanup].  A statement maps the frame of
    [main] (the globals and the locals that matter below) to the way
    control leaves it. *)

(** What the collaborators answer, and what the command line holds. *)
Record Environment : Type := mkEnv {
  FLAGS_config : string;
  FLAGS_eloqkv_config : string;
  FLAGS_eloqsql_config : string;
  (** the [int32] flag [bthread_concurrency]: [GetCommandLineOption] prints
      it in decimal and [std::stoi] reads it back *)
  bthread_concurrency : Z;
  redis_ip_port : string;
  new_server : Addr;
  new_service : Addr;
  DataSubstrate_Init_result : bool;
  RedisServiceImpl_Init_result : bool;
  WaitForEnabledEnginesRegistered_result : bool;
  DataSubstrate_Start_result : bool;
  RedisServiceImpl_Start_result : bool;
  Server_Start_result : Z;
  (** the signals handled while [RunUntilAskedToQuit] blocks, in order *)
  signals_while_serving : list Z
}.

(** [brpc::ServerOptions], the fields [main] assigns. *)
Record ServerOptions : Type := mkServerOptions {
  num_threads : Z;
  redis_service : option Addr;
  has_builtin_services : bool
}.

Record Frame : Type := mkFrame {
  globals : Process;
  return_code : Z;
  local_eloqkv_service_ptr : option Addr;
  eloqkv_options : ServerOptions
}.

Inductive Flow : Type :=
| Fallthrough
| Goto_cleanup
| Return (rc : Z).

Definition Stmt : Type := Frame -> Flow * Frame.

Definition skip : Stmt := fun f => (Fallthrough, f).

Definition seq (a c : Stmt) : Stmt :=
  fun f =>
    match a f with
    | (Fallthrough, f') => c f'
    | out => out
    end.

Notation "a ;; c" := (seq a c) (at level 61, right associativity).

Definition goto_cleanup : Stmt := fun f => (Goto_cleanup, f).

Definition return_ (rc : Z) : Stmt := fun f => (Return rc, f).

(** A statement that only touches the globals. *)
Definition on_globals (g : Process -> Process) : Stmt :=
  fun f =>
    (Fallthrough,
     mkFrame (g (globals f)) (return_code f) (local_eloqkv_service_ptr f)
       (eloqkv_options f)).

Definition do_call (e : Event) : Stmt := on_globals (call e).

Definition cout (line : list Part) : Stmt := do_call (EvCout line).

Definition log (sev : Severity) (msg : string) : Stmt :=
  on_globals (LOG sev [Str msg]).

Definition assign_return_code (rc : Z) : Stmt :=
  fun f =>
    (Fallthrough,
     mkFrame (globals f) rc (local_eloqkv_service_ptr f) (eloqkv_options f)).

Definition assign_local_eloqkv_service_ptr (p : option Addr) : Stmt :=
  fun f =>
    (Fallthrough, mkFrame (globals f) (return_code f) p (eloqkv_options f)).

Definition assign_eloqkv_options (o : ServerOptions) : Stmt :=
  fun f =>
    (Fallthrough,
     mkFrame (globals f) (return_code f) (local_eloqkv_service_ptr f) o).

(** [#ifdef] and [if]. *)
Definition ifdef (defined : bool) (a : Stmt) : Stmt :=
  if defined then a else skip.

Definition when (c : bool) (a : Stmt) : Stmt :=
  if c then a else skip.

(** A statement that reads the frame first. *)
Definition reading {A : Type} (get : Frame -> A) (k : A -> Stmt) : Stmt :=
  fun f => k (get f) f.

Definition VERSION : string := "1.0.0".
Definition SIGINT : Z := 2.
Definition SIGTERM : Z := 15.

Definition banner : list Part :=
  [Str "======================================"].

(** The engine sections of [main], one per preprocessor block.  During
    start-up the service and the server are the objects [main] has just
    made, so the calls through [g_eloqkv_service], [g_eloqkv_server] and the
    local [eloqkv_service_ptr] name them directly. *)

(** The body of the thread [main] spawns, as the trace of that thread:
    [mysqld_main] runs, and a non-zero result is logged as an error.  It
    runs beside [main], between the spawn and the return of the join. *)
Definition eloqsql_thread_body (result : Z) : list Event :=
  EvMysqldMain
  :: (if negb (result =? 0)
      then [EvLog ERROR [Str "EloqSQL server exited with error: ";
                         Num result]]
      else []).

Definition start_eloqsql : Stmt :=
  do_call (EvEnableEngine EloqSql) ;;
  cout [Str "Starting EloqSQL initialization..."] ;;
  log INFO "Launching EloqSQL main thread" ;;
  on_globals (fun s => set_g_eloqsql_thread thread_mysqld_main
                         (call EvThreadSpawn s)) ;;
  on_globals (set_eloqsql_thread_started true).

Definition start_eloqkv (env : Environment) : Stmt :=
  do_call (EvEnableEngine EloqKv) ;;
  cout [Str "Starting EloqKV server..."] ;;
  let eloqkv_config :=
    if String.eqb (FLAGS_eloqkv_config env) EmptyString
    then FLAGS_config env else FLAGS_eloqkv_config env in
  on_globals (fun s => set_g_eloqkv_server (Some (new_server env))
                         (call (EvMakeServer (new_server env)) s)) ;;
  on_globals (fun s => set_g_eloqkv_service (Some (new_service env))
                         (call (EvMakeService (new_service env)
                                  eloqkv_config VERSION) s)) ;;
  reading (fun f => g_eloqkv_service (globals f))
    assign_local_eloqkv_service_ptr ;;
  assign_eloqkv_options (mkServerOptions 0 None true) ;;
  do_call (EvGetCommandLineOption "bthread_concurrency") ;;
  do_call (EvServiceInit (new_service env) (new_server env)) ;;
  when (negb (RedisServiceImpl_Init_result env))
    (log ERROR "Failed to initialize EloqKV service" ;;
     assign_return_code (-1) ;;
     goto_cleanup) ;;
  on_globals (set_eloqkv_init true) ;;
  reading local_eloqkv_service_ptr
    (fun p => on_globals (set_eloqkv_service_ptr p)).

Definition second_phase_eloqkv (env : Environment) : Stmt :=
  do_call (EvServiceStart (new_service env) (new_server env)) ;;
  when (negb (RedisServiceImpl_Start_result env))
    (log ERROR "Failed to start EloqKV service (second phase)" ;;
     assign_return_code (-1) ;;
     goto_cleanup) ;;
  (* Track pointer before release (release transfers ownership to brpc) *)
  reading local_eloqkv_service_ptr
    (fun p => on_globals (set_eloqkv_service_ptr p)) ;;
  reading (fun f => g_eloqkv_service (globals f))
    (fun released =>
       on_globals (set_g_eloqkv_service None) ;;
       assign_eloqkv_options
         (mkServerOptions (bthread_concurrency env) released false)) ;;
  reading eloqkv_options
    (fun o =>
       do_call (EvServerStart (new_server env) (redis_ip_port env)
                  (num_threads o) (redis_service o))) ;;
  when (negb (Server_Start_result env =? 0))
    (log ERROR "Failed to start EloqKV server" ;;
     assign_return_code (-1) ;;
     goto_cleanup) ;;
  on_globals (LOG INFO [Str "EloqKV server started on ";
                        Str (redis_ip_port env)]) ;;
  cout [Str "EloqKV server listening on "; Str (redis_ip_port env)] ;;
  do_call (EvGetAcceptor (new_server env)).

Definition wait_for_shutdown_signal (b : BuildConfig) (env : Environment)
  : Stmt :=
  reading (fun f => g_eloqkv_server (globals f))
    (fun server =>
       match server with
       | Some q =>
           do_call (EvRunUntilAskedToQuit q) ;;
           on_globals (deliver b (signals_while_serving env))
       | None => skip
       end).

(** The start-up sequence of [main]: everything before the final wait. *)
Definition startup (b : BuildConfig) (env : Environment) : Stmt :=
  do_call (EvSetVersionString VERSION) ;;
  do_call EvParseCommandLineFlags ;;
  ifdef (BRPC_WITH_GLOG b) (do_call EvInitGoogleLogging) ;;
  cout banner ;;
  cout [Str "EloqDB Database Server v"; Str VERSION] ;;
  cout banner ;;
  do_call (EvSignal SIGINT) ;;
  do_call (EvSignal SIGTERM) ;;
  assign_return_code 0 ;;
  (* Step 1: Always initialize DataSubstrate first *)
  cout [Str "Initializing data substrate..."] ;;
  do_call (EvDataSubstrateInit (FLAGS_config env)) ;;
  when (negb (DataSubstrate_Init_result env))
    (log ERROR "Failed to initialize DataSubstrate" ;;
     do_call EvShutdownGoogleLogging ;;
     return_ (-1)) ;;
  on_globals (set_data_substrate_init true) ;;
  log INFO "Data substrate initialized (config loaded)" ;;
  cout [Str "Data substrate initialized"] ;;
  (* Step 2: mark enabled engines and start their init *)
  ifdef (ELOQ_MODULE_ELOQSQL b) start_eloqsql ;;
  ifdef (ELOQ_MODULE_ELOQKV b) (start_eloqkv env) ;;
  ifdef (ELOQ_MODULE_ELOQDOC b) skip ;;
  (* Step 3: wait for all enabled engines to register *)
  cout [Str "Waiting for enabled engines to register..."] ;;
  do_call (EvWaitForEnabledEnginesRegistered 600000) ;;
  when (negb (WaitForEnabledEnginesRegistered_result env))
    (log ERROR "Timed out waiting for engines to register" ;;
     assign_return_code (-1) ;;
     goto_cleanup) ;;
  log INFO "All enabled engines registered successfully" ;;
  (* Step 4: Start DataSubstrate and notify engines *)
  cout [Str "Starting data substrate services..."] ;;
  do_call EvDataSubstrateStart ;;
  when (negb (DataSubstrate_Start_result env))
    (log ERROR "Failed to start DataSubstrate" ;;
     assign_return_code (-1) ;;
     goto_cleanup) ;;
  log INFO "Data substrate started successfully" ;;
  cout [Str "Data substrate started"] ;;
  ifdef (ELOQ_MODULE_ELOQKV b) (second_phase_eloqkv env) ;;
  cout banner ;;
  cout [Str "All servers started successfully"] ;;
  cout [Str "Press Ctrl+C to shutdown"] ;;
  cout banner.

(** The body of [main] down to the [cleanup] label. *)
Definition main_body (b : BuildConfig) (env : Environment) : Stmt :=
  startup b env ;;
  (* Wait for shutdown signal *)
  ifdef (ELOQ_MODULE_ELOQKV b) (wait_for_shutdown_signal b env).

(** The [cleanup:] label and what follows it. *)
Definition cleanup (b : BuildConfig) (f : Frame) : Z * Process :=
  let s := CleanupComponents b (globals f) in
  let s := if BRPC_WITH_GLOG b then call EvShutdownGoogleLogging s else s in
  (return_code f, s).

Definition initial_frame : Frame :=
  mkFrame initial_process 0 None (mkServerOptions 0 None true).

(** [int main(int argc, char *argv[])]: the value returned and the process
    state it leaves. *)
Definition main (b : BuildConfig) (env : Environment) : Z * Process :=
  match main_body b env initial_frame with
  | (Return rc, f) => (rc, globals f)
  | (_, f) => cleanup b f
  end.

(** The status the parent observes: the low eight bits of what [main]
    returns. *)
Definition exit_status (rc : Z) : Z := Z.land rc 255.

(** * The logging set-up ([glog_error_logging.h])

    The header formats the prefix of every log line ([CustomPrefix]) and
    prepares glog before the coordinator starts ([InitGoogleLogging]).  Both
    are written against library objects: an output stream, glog's record of
    a log message, glog's flags, the file system and the environment.  The
    stream is modelled with the three things the formatting depends on (fill
    character, pending field width, text written so far); the library calls
    of the set-up are recorded as a list, and what the host answers is read
    from a [Host].  Every library call is taken to return normally. *)

(** ** Output streams *)

Module std.

Record ostream : Type := mkOstream {
  fill : ascii;
  width : Z;
  str : string
}.

(** What can stand to the right of [<<] in the header. *)
Inductive operand : Type :=
| text (t : string)
| chr (c : ascii)
| int (n : Z)
| setw (n : Z)
| setfill (c : ascii).

Fixpoint replicate (n : nat) (c : ascii) : string :=
  match n with
  | O => EmptyString
  | S n' => String c (replicate n' c)
  end.

(** A field of at least [w] characters, right-adjusted. *)
Definition padded (c : ascii) (w : Z) (t : string) : string :=
  String.append
    (replicate (Z.to_nat (w - Z.of_nat (String.length t))) c) t.

Definition digit (d : Z) : ascii := ascii_of_nat (48 + Z.to_nat d).

Fixpoint decimal_digits (fuel : nat) (n : Z) : string :=
  match fuel with
  | O => EmptyString
  | S fuel' =>
      String.append
        (if n <? 10 then EmptyString else decimal_digits fuel' (n / 10))
        (String (digit (n mod 10)) EmptyString)
  end.

(** An integer as the stream prints it: decimal, a minus sign when
    negative. *)
Definition decimal (n : Z) : string :=
  if n <? 0
  then String "-"%char (decimal_digits (S (Z.to_nat (Z.log2 (- n)))) (- n))
  else decimal_digits (S (Z.to_nat (Z.log2 n))) n.

(** [s << x].  A formatted insertion pads to the pending width with the
    fill character and resets the width; the manipulators only set the
    width or the fill. *)
Definition insert (s : ostream) (x : operand) : ostream :=
  match x with
  | text t =>
      mkOstream (fill s) 0 (String.append (str s) (padded (fill s) (width s) t))
  | chr c =>
      mkOstream (fill s) 0
        (String.append (str s)
           (padded (fill s) (width s) (String c EmptyString)))
  | int n =>
      mkOstream (fill s) 0
        (String.append (str s) (padded (fill s) (width s) (decimal n)))
  | setw n => mkOstream (fill s) n (str s)
  | setfill c => mkOstream c (width s) (str s)
  end.

End std.

Declare Scope stream_scope.
Delimit Scope stream_scope with stream.
Notation "s << x" := (std.insert s x)
  (at level 50, left associativity) : stream_scope.

(** ** glog's side *)

Module google.

Inductive LogSeverity : Type := INFO | WARNING | ERROR | FATAL.

(** [google::LogMessageTime], through its accessors. *)
Record LogMessageTime : Type := mkLogMessageTime {
  year : Z;
  month : Z;
  day : Z;
  hour : Z;
  min : Z;
  sec : Z;
  usec : Z
}.

(** [google::LogMessageInfo]. *)
Record LogMessageInfo : Type := mkLogMessageInfo {
  severity : string;
  filename : string;
  line_number : Z;
  thread_id : Z;
  time : LogMessageTime
}.

End google.

(** [inline void CustomPrefix(std::ostream &s, const google::LogMessageInfo
    &l, ...)]; the third parameter, an untyped pointer, is not used. *)
Definition CustomPrefix (s : std.ostream) (l : google.LogMessageInfo)
  : std.ostream :=
  (s << std.text "[time "
     << std.setw 4 << std.int (1900 + google.year (google.time l))
     << std.chr "-"
     << std.setw 2 << std.int (1 + google.month (google.time l))
     << std.chr "-"
     << std.setw 2 << std.int (google.day (google.time l))
     << std.chr "T"
     << std.setw 2 << std.int (google.hour (google.time l))
     << std.chr ":"
     << std.setw 2 << std.int (google.min (google.time l))
     << std.chr ":"
     << std.setw 2 << std.int (google.sec (google.time l))
     << std.chr "."
     << std.setfill "0" << std.setw 6
     << std.int (google.usec (google.time l))
     << std.text "] "
     << std.text "[level " << std.text (google.severity l) << std.text "] "
     << std.text "[thread " << std.int (google.thread_id l) << std.text "] "
     << std.text "[" << std.text (google.filename l) << std.chr ":"
     << std.int (google.line_number l) << std.text "]")%stream.

(** The glog flags the set-up reads or writes. *)
Record LoggingFlags : Type := mkLoggingFlags {
  FLAGS_logtostderr : bool;
  FLAGS_alsologtostderr : bool;
  FLAGS_logtostdout : bool;
  FLAGS_log_dir : string;
  FLAGS_minloglevel : Z;
  FLAGS_logbuflevel : Z;
  FLAGS_log_file_header : bool;
  FLAGS_log_file_name_prefix : string
}.

(** What the host answers. *)
Record Host : Type := mkHost {
  argv0 : string;
  (** the target of [/proc/self/exe], as [readlink] stores it *)
  proc_self_exe : string;
  (** [std::filesystem::path::parent_path], on path strings *)
  parent_path : string -> string;
  (** [std::filesystem::exists] *)
  directory_exists : string -> bool;
  (** [std::getenv] *)
  getenv : string -> option string
}.

(** The library calls of the set-up. *)
Inductive LoggingCall : Type :=
| Readlink (path : string)
| Exists (dir : string)
| CreateDirectories (dir : string)
| Getenv (name : string)
| SetLogDestination (sev : google.LogSeverity) (base_filename : string)
| SetLogSymlink (sev : google.LogSeverity) (symlink_basename : string)
| GoogleInitGoogleLogging (program : string).

(** [std::filesystem::path::preferred_separator] on the hosts that have
    [/proc/self/exe]. *)
Definition preferred_separator : ascii := "/"%char.

(** [inline void InitGoogleLogging(char **argv)]: the flags it leaves and
    the calls it makes. *)
Definition InitGoogleLogging (h : Host) (f : LoggingFlags)
  : LoggingFlags * list LoggingCall :=
  let '(f, calls) :=
    if FLAGS_logtostderr f && String.eqb (FLAGS_log_dir f) EmptyString then
      (mkLoggingFlags (FLAGS_logtostderr f) false false (FLAGS_log_dir f)
         (FLAGS_minloglevel f) (FLAGS_logbuflevel f)
         (FLAGS_log_file_header f) (FLAGS_log_file_name_prefix f),
       [])
    else
      let '(log_dir, calls) :=
        if String.eqb (FLAGS_log_dir f) EmptyString then
          (String.append (parent_path h (parent_path h (proc_self_exe h)))
             "/logs",
           [Readlink "/proc/self/exe"])
        else (FLAGS_log_dir f, []) in
      let calls := calls ++ [Exists log_dir] in
      let calls :=
        if negb (directory_exists h log_dir)
        then calls ++ [CreateDirectories log_dir] else calls in
      let calls := calls ++ [Getenv "GLOG_log_file_name_prefix"] in
      let log_file_name_prefix :=
        match getenv h "GLOG_log_file_name_prefix" with
        | None => FLAGS_log_file_name_prefix f
        | Some value => value
        end in
      let log_file_prefix :=
        String.append
          (String.append
             (String.append log_dir (String preferred_separator EmptyString))
             log_file_name_prefix)
          "." in
      (mkLoggingFlags false false false log_dir 0 (-1) true
         log_file_name_prefix,
       calls
       ++ [SetLogDestination google.INFO
             (String.append log_file_prefix "INFO.");
           SetLogDestination google.WARNING
             (String.append log_file_prefix "WARNING.");
           SetLogDestination google.ERROR
             (String.append log_file_prefix "ERROR.");
           SetLogSymlink google.INFO log_file_name_prefix;
           SetLogSymlink google.WARNING log_file_name_prefix;
           SetLogSymlink google.ERROR log_file_name_prefix])
  in
  (f, calls ++ [GoogleInitGoogleLogging (argv0 h)]).

(** * Vocabulary of the properties *)

(** ** Reading a trace *)

(** Teardown actions: the collaborator calls of the shutdown controller and
    of the caller after it. *)
Inductive Stage : Type :=
| SubstrateShutdown
| KeyValueStop
| RelationalStop
| RelationalJoin
| LoggingShutdown.

Definition stage_of (e : Event) : list Stage :=
  match e with
  | EvDataSubstrateShutdown => [SubstrateShutdown]
  | EvServiceStop _ => [KeyValueStop]
  | EvShutdownMysqld => [RelationalStop]
  | EvThreadJoin => [RelationalJoin]
  | EvShutdownGoogleLogging => [LoggingShutdown]
  | _ => []
  end.

(** The teardown actions of a trace, in the order they happened. *)
Definition stages (t : list Event) : list Stage := flat_map stage_of t.

(** Events by which an engine is enabled, constructed or started. *)
Definition engine_activity (e : Event) : bool :=
  match e with
  | EvEnableEngine _ | EvThreadSpawn | EvMakeServer _ | EvMakeService _ _ _
  | EvServiceInit _ _ | EvServiceStart _ _ | EvServerStart _ _ _ _
  | EvGetAcceptor _ | EvRunUntilAskedToQuit _ => true
  | _ => false
  end.

(** The call on which [main] waits for the shutdown trigger. *)
Definition blocking_call (e : Event) : bool :=
  match e with
  | EvRunUntilAskedToQuit _ => true
  | _ => false
  end.

(** The timeouts of the registration waits of a trace. *)
Definition wait_timeouts (t : list Event) : list Z :=
  flat_map (fun e => match e with
                     | EvWaitForEnabledEnginesRegistered ms => [ms]
                     | _ => []
                     end) t.

(** The configuration paths the key-value service was constructed with. *)
Definition service_configs (t : list Event) : list string :=
  flat_map (fun e => match e with
                     | EvMakeService _ config _ => [config]
                     | _ => []
                     end) t.

(** The life of the relational engine's thread. *)
Definition thread_view (e : Event) : list Event :=
  match e with
  | EvThreadSpawn | EvShutdownMysqld | EvThreadJoin => [e]
  | _ => []
  end.

Definition thread_events (t : list Event) : list Event :=
  flat_map thread_view t.

(** ** What a function adds to the history *)

(** The same process with an empty history: what a function appends to it
    is what the function does. *)
Definition forget (s : Process) : Process :=
  mkProcess (g_shutdown_requested s) (g_init_state s) (g_eloqkv_server s)
    (g_eloqkv_service s) (g_eloqsql_thread s) [].

Definition CleanupComponents_events (b : BuildConfig) (s : Process)
  : list Event :=
  trace (CleanupComponents b (forget s)).

Definition SignalHandler_events (b : BuildConfig) (signal : Z) (s : Process)
  : list Event :=
  trace (SignalHandler b signal (forget s)).

(** What the caller of [CleanupComponents] adds at the [cleanup] label. *)
Definition logging_shutdown (b : BuildConfig) : list Event :=
  if BRPC_WITH_GLOG b then [EvShutdownGoogleLogging] else [].

(** What [CleanupComponents] reads and writes: the init state and the three
    handles, not the shutdown flag and not the history. *)
Definition resources (s : Process)
  : InitState * option Addr * option Addr * std_thread :=
  (g_init_state s, g_eloqkv_server s, g_eloqkv_service s, g_eloqsql_thread s).

Definition non_null {A : Type} (p : option A) : bool :=
  match p with
  | Some _ => true
  | None => false
  end.

(** ** The end of [main] *)

(** The globals once [RunUntilAskedToQuit] has returned, if it was called. *)
Definition serving (b : BuildConfig) (env : Environment) (s : Process)
  : Process :=
  if ELOQ_MODULE_ELOQKV b then
    match g_eloqkv_server s with
    | Some q =>
        deliver b (signals_while_serving env) (call (EvRunUntilAskedToQuit q) s)
    | None => s
    end
  else s.

Definition with_globals (s : Process) (f : Frame) : Frame :=
  mkFrame s (return_code f) (local_eloqkv_service_ptr f) (eloqkv_options f).

(** ** The paths through start-up *)

(** The checks of [main], in the order it makes them. *)
Inductive StartupStep : Type :=
| SubstrateInit
| EngineInit
| RegistrationWait
| SubstrateStart
| EngineSecondPhase
| ServerListen.

(** The first check that fails in a given environment, if any.  The
    key-value checks exist only in a build with that engine. *)
Definition first_failure (b : BuildConfig) (env : Environment)
  : option StartupStep :=
  if negb (DataSubstrate_Init_result env) then Some SubstrateInit
  else if ELOQ_MODULE_ELOQKV b && negb (RedisServiceImpl_Init_result env)
  then Some EngineInit
  else if negb (WaitForEnabledEnginesRegistered_result env)
  then Some RegistrationWait
  else if negb (DataSubstrate_Start_result env) then Some SubstrateStart
  else if ELOQ_MODULE_ELOQKV b && negb (RedisServiceImpl_Start_result env)
  then Some EngineSecondPhase
  else if ELOQ_MODULE_ELOQKV b && negb (Server_Start_result env =? 0)
  then Some ServerListen
  else None.

(** ** Sample runs and states *)

(** Every collaborator succeeds; an interrupt and then a terminate arrive
    while the server runs. *)
Definition env_all_ok : Environment :=
  mkEnv "/etc/eloq/ds.ini" EmptyString EmptyString 8 "127.0.0.1:6379"
    1%nat 2%nat true true true true true 0 [SIGINT; SIGTERM].

(** The substrate refuses its configuration. *)
Definition env_init_fails : Environment :=
  mkEnv "/etc/eloq/ds.ini" EmptyString EmptyString 8 "127.0.0.1:6379"
    1%nat 2%nat false true true true true 0 [].

(** An engine never registers. *)
Definition env_wait_times_out : Environment :=
  mkEnv "/etc/eloq/ds.ini" "/etc/eloq/kv.ini" EmptyString 8 "127.0.0.1:6379"
    1%nat 2%nat true true false true true 0 [].

(** An init state whose key-value flag is true while the tracked service
    pointer is null. *)
Definition flag_without_pointer : Process :=
  mkProcess false (mkInitState true true false None) None None
    not_a_thread [].

(** ** The lifecycle as a whole *)

(** The calls that drive the lifecycle, start-up and teardown. *)
Inductive Milestone : Type :=
| AtSubstrateInit
| AtEnable (kind : TableEngine)
| AtThreadSpawn
| AtServiceInit
| AtBarrier
| AtSubstrateStart
| AtServiceStart
| AtServerStart
| AtTeardown (stage : Stage).

Definition milestone_of (e : Event) : list Milestone :=
  match e with
  | EvDataSubstrateInit _ => [AtSubstrateInit]
  | EvEnableEngine kind => [AtEnable kind]
  | EvThreadSpawn => [AtThreadSpawn]
  | EvServiceInit _ _ => [AtServiceInit]
  | EvWaitForEnabledEnginesRegistered _ => [AtBarrier]
  | EvDataSubstrateStart => [AtSubstrateStart]
  | EvServiceStart _ _ => [AtServiceStart]
  | EvServerStart _ _ _ _ => [AtServerStart]
  | _ => map AtTeardown (stage_of e)
  end.

Definition milestones (t : list Event) : list Milestone :=
  flat_map milestone_of t.

(** The place of a milestone in the life of the process. *)
Definition rank (m : Milestone) : nat :=
  match m with
  | AtSubstrateInit => 0
  | AtEnable EloqSql => 1
  | AtThreadSpawn => 2
  | AtEnable EloqKv => 3
  | AtEnable EloqDoc => 4
  | AtServiceInit => 5
  | AtBarrier => 6
  | AtSubstrateStart => 7
  | AtServiceStart => 8
  | AtServerStart => 9
  | AtTeardown SubstrateShutdown => 10
  | AtTeardown KeyValueStop => 11
  | AtTeardown RelationalStop => 12
  | AtTeardown RelationalJoin => 13
  | AtTeardown LoggingShutdown => 14
  end%nat.

Fixpoint increasing (l : list nat) : bool :=
  match l with
  | x :: (y :: _) as rest => Nat.ltb x y && increasing rest
  | _ => true
  end.

Definition reached (m : Milestone) (ms : list Milestone) : bool :=
  existsb (fun m' => Nat.eqb (rank m) (rank m')) ms.

(** Whether an engine is compiled into a build. *)
Definition compiled (b : BuildConfig) (kind : TableEngine) : bool :=
  match kind with
  | EloqSql => ELOQ_MODULE_ELOQSQL b
  | EloqKv => ELOQ_MODULE_ELOQKV b
  | EloqDoc => false
  end.

(** What happens to the two key-value objects. *)
Inductive Lifetime : Type :=
| Made (object : Addr)
| Stopped (object : Addr)
| Deleted (object : Addr).

Definition lifetime_view (e : Event) : list Lifetime :=
  match e with
  | EvMakeServer q => [Made q]
  | EvMakeService p _ _ => [Made p]
  | EvServiceStop p => [Stopped p]
  | EvServiceDelete p => [Deleted p]
  | EvServerDelete q => [Deleted q]
  | _ => []
  end.

Definition lifetimes (t : list Event) : list Lifetime :=
  flat_map lifetime_view t.

(** Error lines and teardown actions, in the order they happen: [None] is
    a line logged at severity ERROR. *)
Definition diagnosis_view (e : Event) : list (option Stage) :=
  match e with
  | EvLog ERROR _ => [None]
  | _ => map Some (stage_of e)
  end.

Definition diagnosis (t : list Event) : list (option Stage) :=
  flat_map diagnosis_view t.

(** The number of lines logged at severity ERROR in a trace. *)
Definition error_view (e : Event) : list unit :=
  match e with
  | EvLog ERROR _ => [tt]
  | _ => []
  end.

Definition error_lines (t : list Event) : nat :=
  List.length (flat_map error_view t).

(** The two ends of glog's life in a run of [main]: [true] is its
    initialisation, [false] its shutdown. *)
Definition glog_view (e : Event) : list bool :=
  match e with
  | EvInitGoogleLogging => [true]
  | EvShutdownGoogleLogging => [false]
  | _ => []
  end.

(** The same command line with another EloqSQL configuration path. *)
Definition with_eloqsql_config (path : string) (env : Environment)
  : Environment :=
  mkEnv (FLAGS_config env) (FLAGS_eloqkv_config env) path
    (bthread_concurrency env) (redis_ip_port env) (new_server env)
    (new_service env) (DataSubstrate_Init_result env)
    (RedisServiceImpl_Init_result env)
    (WaitForEnabledEnginesRegistered_result env)
    (DataSubstrate_Start_result env) (RedisServiceImpl_Start_result env)
    (Server_Start_result env) (signals_while_serving env).

(** The same build with or without the EloqDoc symbol. *)
Definition with_eloqdoc (doc : bool) (b : BuildConfig) : BuildConfig :=
  mkBuild (ELOQ_MODULE_ELOQKV b) (ELOQ_MODULE_ELOQSQL b) doc
    (BRPC_WITH_GLOG b).

(** ** The logging set-up *)

(** The set-up keeps logging on stderr alone: asked for, and no log
    directory given. *)
Definition stderr_only (f : LoggingFlags) : bool :=
  FLAGS_logtostderr f && String.eqb (FLAGS_log_dir f) EmptyString.

(** The calls that look at the host or prepare the directory. *)
Definition preparation_call (c : LoggingCall) : bool :=
  match c with
  | Readlink _ | Exists _ | CreateDirectories _ | Getenv _ => true
  | _ => false
  end.

Definition preparation (calls : list LoggingCall) : list LoggingCall :=
  filter preparation_call calls.

Definition created (calls : list LoggingCall) : list string :=
  flat_map (fun c => match c with
                     | CreateDirectories dir => [dir]
                     | _ => []
                     end) calls.

Definition checked (calls : list LoggingCall) : list string :=
  flat_map (fun c => match c with
                     | Exists dir => [dir]
                     | _ => []
                     end) calls.

(** The stem of the log files: directory, separator, file-name prefix and a
    dot. *)
Definition log_file_stem (f : LoggingFlags) : string :=
  String.append
    (String.append (String.append (FLAGS_log_dir f) "/")
       (FLAGS_log_file_name_prefix f))
    ".".

(** A log record and a stream for the examples. *)
Definition sample_message : google.LogMessageInfo :=
  google.mkLogMessageInfo "INFO" "converged_main.cpp" 152 4711
    (google.mkLogMessageTime 126 10 2 9 5 7 1234).

Definition fresh_stream : std.ostream := std.mkOstream " " 0 EmptyString.

Definition sample_host : Host :=
  mkHost "eloqdb" "/opt/eloq/bin/eloqdb"
    (fun p => if String.eqb p "/opt/eloq/bin/eloqdb"
              then "/opt/eloq/bin" else "/opt/eloq")
    (fun _ => false) (fun _ => None).

Definition flags_to_files : LoggingFlags :=
  mkLoggingFlags true true true "/var/log/eloq" 2 0 false "eloqdb".

(** ** Case analysis *)

(** Every shape of the globals, and every choice of engines. *)
Ltac each_process s :=
  destruct s as [?req [[] [] [] [?p|]] [?q|] [?p'|] [] ?tr].

Ltac each_build b :=
  destruct b as [[] [] ?doc ?glog].

Ltac flatten_trace :=
  cbn; rewrite <- ?app_assoc, ?app_nil_r; cbn; try reflexivity.

(** The checks of [startup], in source order: a branch is split further
    only while start-up is still running on it. *)
Ltac startup_paths b env :=
  destruct b as [kv sql doc glog];
  destruct env as [c kc sc n ip srv svc r1 r2 r3 r4 r5 r6 sigs];
  cbn in * |-;
  destruct r1;
    [ try discriminate;
      (destruct kv;
       [ destruct r2;
         [ try discriminate;
           (destruct r3;
            [ try discriminate;
              (destruct r4;
               [ try discriminate;
                 (destruct r5;
                  [ try discriminate; destruct r6 as [|?m|?m] | ]) | ]) | ])
         | ]
       | destruct r3; [ try discriminate; destruct r4 | ] ])
    | ];
  try discriminate;
  destruct sql, doc, glog;
  try discriminate.

(** * Properties *)

(** ** The shutdown controller does not depend on the history *)

Lemma CleanupComponents_trace (b : BuildConfig) (s : Process) :
  trace (CleanupComponents b s) = trace s ++ CleanupComponents_events b s.
Proof.
  each_build b; each_process s; flatten_trace.
Qed.

Lemma CleanupComponents_requested (b : BuildConfig) (s : Process) :
  g_shutdown_requested (CleanupComponents b s) = g_shutdown_requested s.
Proof.
  each_build b; each_process s; reflexivity.
Qed.

Lemma CleanupComponents_events_flag (b : BuildConfig) (v : bool)
  (s : Process) :
  CleanupComponents_events b (set_g_shutdown_requested v s) =
  CleanupComponents_events b s.
Proof.
  each_build b; each_process s; reflexivity.
Qed.

Lemma CleanupComponents_events_call (b : BuildConfig) (e : Event)
  (s : Process) :
  CleanupComponents_events b (call e s) = CleanupComponents_events b s.
Proof.
  destruct s; reflexivity.
Qed.

(** ** The signal handler *)

Lemma SignalHandler_requested (b : BuildConfig) (signal : Z) (s : Process) :
  g_shutdown_requested s = true -> SignalHandler b signal s = s.
Proof.
  destruct s as [req i srv svc th tr]; cbn; intros ->; reflexivity.
Qed.

Lemma SignalHandler_fresh (b : BuildConfig) (signal : Z) (s : Process) :
  g_shutdown_requested s = false ->
  SignalHandler b signal s =
  LOG INFO [Str "Shutdown complete"]
    (CleanupComponents b
       (LOG INFO [Str "Received signal "; Num signal;
                  Str ", initiating shutdown..."]
          (set_g_shutdown_requested true s))).
Proof.
  destruct s as [req i srv svc th tr]; cbn -[CleanupComponents].
  intros ->; reflexivity.
Qed.

Lemma SignalHandler_sets_flag (b : BuildConfig) (signal : Z) (s : Process) :
  g_shutdown_requested (SignalHandler b signal s) = true.
Proof.
  destruct (g_shutdown_requested s) eqn:E.
  - rewrite SignalHandler_requested; assumption.
  - rewrite SignalHandler_fresh by assumption.
    cbn -[CleanupComponents]. apply CleanupComponents_requested.
Qed.

Lemma deliver_requested (b : BuildConfig) (signals : list Z) (s : Process) :
  g_shutdown_requested s = true -> deliver b signals s = s.
Proof.
  unfold deliver.
  induction signals as [|x xs IH]; cbn -[SignalHandler]; intros H.
  - reflexivity.
  - rewrite SignalHandler_requested by exact H. apply IH, H.
Qed.

Lemma deliver_first (b : BuildConfig) (signals : list Z) (s : Process) :
  deliver b signals s =
  match signals with
  | [] => s
  | signal :: _ => SignalHandler b signal s
  end.
Proof.
  destruct signals as [|x xs]; [reflexivity|].
  change (deliver b (x :: xs) s) with (deliver b xs (SignalHandler b x s)).
  apply deliver_requested, SignalHandler_sets_flag.
Qed.

Lemma SignalHandler_trace (b : BuildConfig) (signal : Z) (s : Process) :
  trace (SignalHandler b signal s) = trace s ++ SignalHandler_events b signal s.
Proof.
  unfold SignalHandler_events.
  destruct (g_shutdown_requested s) eqn:E.
  - rewrite !SignalHandler_requested by (destruct s; assumption).
    cbn. now rewrite app_nil_r.
  - rewrite !SignalHandler_fresh by (destruct s; assumption).
    cbn -[CleanupComponents]. rewrite !CleanupComponents_trace.
    cbn -[CleanupComponents_events]. rewrite <- !app_assoc.
    unfold CleanupComponents_events. destruct s; reflexivity.
Qed.

(** ** Shutdown is idempotent *)

(** C1.  Two runs of [CleanupComponents] in a row perform the teardown
    once.  The first run does all of it: it appends to the history exactly
    the substrate shutdown (if the substrate flag is set), the stop of the
    key-value service (if the engine is compiled in, its flag is set and the
    service pointer is tracked) and the release of both key-value handles,
    and the shutdown and join of the relational thread (if compiled in and
    started), each between its log lines and in that order.  The second run
    changes nothing, in any build and from any process state: the whole
    state, trace included, is the one the first run left, so the second run
    shuts down no substrate, stops no engine and joins no thread, and the
    history after both runs is the history after one.  The first run leaves
    the substrate flag false, and the flag of every engine that is compiled
    in false too (with the tracked service pointer null). *)
Theorem CleanupComponents_idempotent :
  forall (b : BuildConfig) (s : Process),
    let once := CleanupComponents b s in
    let i := g_init_state s in
    trace once = trace s ++ CleanupComponents_events b s
    /\ CleanupComponents_events b s =
       (if data_substrate_init i
        then [EvLog INFO [Str "Shutting down DataSubstrate"];
              EvDataSubstrateShutdown;
              EvLog INFO [Str "DataSubstrate shut down"]]
        else [])
       ++ (if ELOQ_MODULE_ELOQKV b
           then
             match eloqkv_init i, eloqkv_service_ptr i with
             | true, Some p =>
                 [EvLog INFO [Str "Stopping EloqKV service"];
                  EvServiceStop p;
                  EvLog INFO [Str "EloqKV service stopped"]]
             | _, _ => []
             end
             ++ match g_eloqkv_service s with
                | Some p => [EvServiceDelete p]
                | None => []
                end
             ++ match g_eloqkv_server s with
                | Some q => [EvServerDelete q]
                | None => []
                end
           else [])
       ++ (if ELOQ_MODULE_ELOQSQL b && eloqsql_thread_started i
           then
             [EvLog INFO [Str "Shutting down EloqSQL server"];
              EvShutdownMysqld]
             ++ (if joinable (g_eloqsql_thread s)
                 then [EvLog INFO [Str "Joining EloqSQL thread"];
                       EvThreadJoin;
                       EvLog INFO [Str "EloqSQL thread joined"]]
                 else [])
           else [])
    /\ CleanupComponents b once = once
    /\ CleanupComponents_events b once = []
    /\ trace (CleanupComponents b once) =
       trace s ++ CleanupComponents_events b s
    /\ data_substrate_init (g_init_state once) = false
    /\ eloqkv_init (g_init_state once) =
       negb (ELOQ_MODULE_ELOQKV b) && eloqkv_init (g_init_state s)
    /\ eloqsql_thread_started (g_init_state once) =
       negb (ELOQ_MODULE_ELOQSQL b) && eloqsql_thread_started (g_init_state s)
    /\ (if ELOQ_MODULE_ELOQKV b
        then eloqkv_service_ptr (g_init_state once) = None
             /\ g_eloqkv_service once = None /\ g_eloqkv_server once = None
        else True).
Proof.
  intros b s once i.
  assert (Hsecond : CleanupComponents b once = once).
  { subst once. each_build b; each_process s; vm_compute; reflexivity. }
  split; [apply CleanupComponents_trace|].
  split.
  { subst i. each_build b; each_process s; vm_compute; reflexivity. }
  split; [exact Hsecond|].
  split.
  { subst once. each_build b; each_process s; vm_compute; reflexivity. }
  split; [rewrite Hsecond; apply CleanupComponents_trace|].
  subst once.
  each_build b; each_process s; vm_compute; repeat split; reflexivity.
Qed.

(** ** Signals reach the shutdown controller once *)

(** C4.  From a process whose shutdown flag is still false, however many
    signals are delivered, the first one wins the compare-and-exchange and
    runs [CleanupComponents] once, between its two log lines, and every
    later delivery returns at once: the outcome of the whole sequence is the
    outcome of its first signal.  A handler that finds the flag already set
    leaves the process exactly as it was, and the flag is set after any
    delivery. *)
Theorem SignalHandler_exactly_once :
  forall (b : BuildConfig) (signal : Z) (later : list Z) (s : Process),
    g_shutdown_requested s = false ->
    deliver b (signal :: later) s =
      LOG INFO [Str "Shutdown complete"]
        (CleanupComponents b
           (LOG INFO [Str "Received signal "; Num signal;
                      Str ", initiating shutdown..."]
              (set_g_shutdown_requested true s)))
    /\ g_shutdown_requested (deliver b (signal :: later) s) = true
    /\ (forall (signal' : Z) (s' : Process),
          g_shutdown_requested s' = true ->
          SignalHandler b signal' s' = s'
          /\ SignalHandler_events b signal' s' = [])
    /\ stages (trace (deliver b (signal :: later) s)) =
       stages (trace s) ++ stages (CleanupComponents_events b s).
Proof.
  intros b signal later s Hs.
  rewrite deliver_first.
  split; [apply SignalHandler_fresh, Hs|].
  split; [apply SignalHandler_sets_flag|].
  split.
  - intros signal' s' Hs'. split.
    + apply SignalHandler_requested, Hs'.
    + unfold SignalHandler_events.
      rewrite SignalHandler_requested by (destruct s'; exact Hs').
      reflexivity.
  - rewrite SignalHandler_fresh by exact Hs.
    cbn -[CleanupComponents]. rewrite CleanupComponents_trace.
    cbn -[CleanupComponents_events].
    unfold stages. rewrite !flat_map_app. cbn -[CleanupComponents_events].
    rewrite !app_nil_r. f_equal.
    unfold LOG.
    now rewrite CleanupComponents_events_call, CleanupComponents_events_flag.
Qed.

(** Three signals in a row on the freshly started process. *)
Lemma SignalHandler_exactly_once_witness :
  g_shutdown_requested initial_process = false
  /\ g_shutdown_requested
       (deliver converged [SIGINT; SIGTERM; SIGINT] initial_process) = true.
Proof.
  split; [reflexivity|].
  apply (SignalHandler_exactly_once converged SIGINT [SIGTERM; SIGINT]
           initial_process).
  reflexivity.
Defined.

(** ** What the shutdown controller looks at *)

Lemma CleanupComponents_resources (b : BuildConfig) (s s' : Process) :
  resources s = resources s' ->
  resources (CleanupComponents b s) = resources (CleanupComponents b s')
  /\ CleanupComponents_events b s = CleanupComponents_events b s'.
Proof.
  destruct s as [req i srv svc th tr], s' as [req' i' srv' svc' th' tr'].
  unfold resources; cbn. intros H; injection H as -> -> -> ->.
  each_build b; destruct i' as [[] [] [] [p|]], srv', svc', th';
    split; reflexivity.
Qed.

Lemma resources_call (e : Event) (s : Process) :
  resources (call e s) = resources s.
Proof. reflexivity. Qed.

Lemma CleanupComponents_twice (b : BuildConfig) (s : Process) :
  CleanupComponents b (CleanupComponents b s) = CleanupComponents b s.
Proof.
  each_build b; each_process s; vm_compute; reflexivity.
Qed.

Lemma CleanupComponents_twice_events (b : BuildConfig) (s : Process) :
  CleanupComponents_events b (CleanupComponents b s) = [].
Proof.
  each_build b; each_process s; reflexivity.
Qed.

(** A delivered signal either is ignored or does what [CleanupComponents]
    does, and nothing else to the resources. *)
Lemma SignalHandler_resources (b : BuildConfig) (signal : Z) (s : Process) :
  resources (SignalHandler b signal s) =
  if g_shutdown_requested s then resources s
  else resources (CleanupComponents b s).
Proof.
  destruct (g_shutdown_requested s) eqn:E.
  - now rewrite SignalHandler_requested.
  - rewrite SignalHandler_fresh by exact E. unfold LOG.
    rewrite resources_call.
    apply CleanupComponents_resources. reflexivity.
Qed.

Lemma SignalHandler_stages (b : BuildConfig) (signal : Z) (s : Process) :
  SignalHandler_events b signal s =
  if g_shutdown_requested s then []
  else EvLog INFO [Str "Received signal "; Num signal;
                   Str ", initiating shutdown..."]
       :: CleanupComponents_events b s
       ++ [EvLog INFO [Str "Shutdown complete"]].
Proof.
  unfold SignalHandler_events.
  destruct (g_shutdown_requested s) eqn:E.
  - rewrite SignalHandler_requested by (destruct s; exact E). reflexivity.
  - rewrite SignalHandler_fresh by (destruct s; exact E).
    cbn -[CleanupComponents]. rewrite CleanupComponents_trace.
    cbn -[CleanupComponents_events]. do 2 f_equal.
    apply CleanupComponents_resources. reflexivity.
Qed.

(** ** From the end of start-up to the exit of [main] *)

Lemma wait_for_shutdown_signal_serving (b : BuildConfig) (env : Environment)
  (f : Frame) :
  ifdef (ELOQ_MODULE_ELOQKV b) (wait_for_shutdown_signal b env) f =
  (Fallthrough, with_globals (serving b env (globals f)) f).
Proof.
  unfold serving, wait_for_shutdown_signal, reading, with_globals.
  destruct f as [s rc p o].
  destruct (ELOQ_MODULE_ELOQKV b); cbn; [|reflexivity].
  destruct (g_eloqkv_server s); reflexivity.
Qed.

Lemma main_cases (b : BuildConfig) (env : Environment) :
  main b env =
  match startup b env initial_frame with
  | (Return rc, f) => (rc, globals f)
  | (Goto_cleanup, f) => cleanup b f
  | (Fallthrough, f) => cleanup b (with_globals (serving b env (globals f)) f)
  end.
Proof.
  unfold main, main_body, seq.
  destruct (startup b env initial_frame) as [[| |rc] f]; try reflexivity.
  now rewrite wait_for_shutdown_signal_serving.
Qed.

Lemma cleanup_trace (b : BuildConfig) (f : Frame) :
  trace (snd (cleanup b f)) =
  trace (globals f) ++ CleanupComponents_events b (globals f)
    ++ logging_shutdown b.
Proof.
  unfold cleanup, logging_shutdown.
  destruct (BRPC_WITH_GLOG b); cbn -[CleanupComponents].
  - rewrite CleanupComponents_trace. now rewrite app_assoc.
  - rewrite CleanupComponents_trace. now rewrite app_nil_r.
Qed.

Lemma cleanup_resources (b : BuildConfig) (f : Frame) :
  resources (snd (cleanup b f)) = resources (CleanupComponents b (globals f)).
Proof.
  unfold cleanup. destruct (BRPC_WITH_GLOG b); reflexivity.
Qed.

Lemma serving_resources (b : BuildConfig) (env : Environment) (s : Process) :
  resources (CleanupComponents b (serving b env s)) =
  resources (CleanupComponents b s).
Proof.
  unfold serving.
  destruct (ELOQ_MODULE_ELOQKV b); [|reflexivity].
  destruct (g_eloqkv_server s) as [q|]; [|reflexivity].
  rewrite deliver_first.
  destruct (signals_while_serving env) as [|signal later].
  - apply CleanupComponents_resources, resources_call.
  - pose proof (SignalHandler_resources b signal
                  (call (EvRunUntilAskedToQuit q) s)) as H.
    destruct (g_shutdown_requested (call (EvRunUntilAskedToQuit q) s)).
    + apply CleanupComponents_resources. now rewrite H.
    + transitivity
        (resources
           (CleanupComponents b
              (CleanupComponents b (call (EvRunUntilAskedToQuit q) s)))).
      * apply CleanupComponents_resources. exact H.
      * rewrite CleanupComponents_twice.
        apply CleanupComponents_resources, resources_call.
Qed.

Section Projection.

(** A reading of traces that ignores informational log lines and the
    blocking call. *)
Context {A : Type} (view : Event -> list A).
Hypothesis view_log : forall msg, view (EvLog INFO msg) = [].
Hypothesis view_run : forall q, view (EvRunUntilAskedToQuit q) = [].

Lemma view_SignalHandler (b : BuildConfig) (signal : Z) (s : Process) :
  flat_map view (SignalHandler_events b signal s) =
  if g_shutdown_requested s then []
  else flat_map view (CleanupComponents_events b s).
Proof.
  rewrite SignalHandler_stages.
  destruct (g_shutdown_requested s); [reflexivity|].
  cbn -[CleanupComponents_events]. rewrite view_log, flat_map_app.
  cbn. rewrite view_log. cbn. now rewrite app_nil_r.
Qed.

(** However the wait ends, the teardown calls between the end of start-up
    and the exit are those of one run of [CleanupComponents] on the state
    start-up left, followed by the logging shutdown. *)
Lemma view_serving (b : BuildConfig) (env : Environment) (f : Frame) :
  flat_map view
    (trace (snd (cleanup b (with_globals (serving b env (globals f)) f)))) =
  flat_map view (trace (globals f))
    ++ flat_map view (CleanupComponents_events b (globals f))
    ++ flat_map view (logging_shutdown b).
Proof.
  rewrite cleanup_trace. cbn [with_globals globals].
  rewrite !flat_map_app, !app_assoc. f_equal.
  set (s := globals f). unfold serving.
  destruct (ELOQ_MODULE_ELOQKV b); [|reflexivity].
  destruct (g_eloqkv_server s) as [q|]; [|reflexivity].
  rewrite deliver_first.
  set (s1 := call (EvRunUntilAskedToQuit q) s).
  assert (Hs1 : flat_map view (trace s1) = flat_map view (trace s)).
  { unfold s1; cbn. rewrite flat_map_app. cbn.
    now rewrite view_run, app_nil_r. }
  assert (He : CleanupComponents_events b s1 = CleanupComponents_events b s).
  { apply CleanupComponents_events_call. }
  destruct (signals_while_serving env) as [|signal later].
  - now rewrite Hs1, He.
  - rewrite SignalHandler_trace, flat_map_app, view_SignalHandler.
    pose proof (SignalHandler_resources b signal s1) as H.
    destruct (g_shutdown_requested s1).
    + rewrite app_nil_r, Hs1. f_equal.
      rewrite <- He. f_equal.
      apply CleanupComponents_resources. exact H.
    + replace (CleanupComponents_events b (SignalHandler b signal s1))
        with (CleanupComponents_events b (CleanupComponents b s1)).
      * rewrite CleanupComponents_twice_events. cbn [flat_map].
        now rewrite app_nil_r, Hs1, He.
      * apply CleanupComponents_resources. symmetry. exact H.
Qed.

Lemma view_main (b : BuildConfig) (env : Environment) :
  flat_map view (trace (snd (main b env))) =
  match startup b env initial_frame with
  | (Return _, f) => flat_map view (trace (globals f))
  | (_, f) =>
      flat_map view (trace (globals f))
        ++ flat_map view (CleanupComponents_events b (globals f))
        ++ flat_map view (logging_shutdown b)
  end.
Proof.
  rewrite main_cases.
  destruct (startup b env initial_frame) as [[| |rc] f].
  - apply view_serving.
  - rewrite cleanup_trace. now rewrite !flat_map_app.
  - reflexivity.
Qed.

End Projection.

Lemma main_resources (b : BuildConfig) (env : Environment) :
  resources (snd (main b env)) =
  match startup b env initial_frame with
  | (Return _, f) => resources (globals f)
  | (_, f) => resources (CleanupComponents b (globals f))
  end.
Proof.
  rewrite main_cases.
  destruct (startup b env initial_frame) as [[| |rc] f].
  - rewrite cleanup_resources. apply serving_resources.
  - apply cleanup_resources.
  - reflexivity.
Qed.

Lemma main_return_code (b : BuildConfig) (env : Environment) :
  fst (main b env) =
  match startup b env initial_frame with
  | (Return rc, _) => rc
  | (_, f) => return_code f
  end.
Proof.
  rewrite main_cases.
  destruct (startup b env initial_frame) as [[| |rc] f]; reflexivity.
Qed.

(** ** The registration barrier *)

(** C10.  In every build and environment, the only registration waits in a
    run of [main] carry the timeout 600000 ms, which is ten minutes; there
    is exactly one such wait when the substrate initialised and, in a build
    with the key-value engine, the service initialised, and none otherwise.
    No flag and no answer of a collaborator enters the timeout. *)
Theorem registration_timeout_fixed :
  forall (b : BuildConfig) (env : Environment),
    wait_timeouts (trace (snd (main b env))) =
      (if DataSubstrate_Init_result env
          && (negb (ELOQ_MODULE_ELOQKV b) || RedisServiceImpl_Init_result env)
       then [600000] else [])
    /\ 600000 = 10 * 60 * 1000.
Proof.
  intros b env. split; [|reflexivity].
  unfold wait_timeouts.
  rewrite view_main by reflexivity.
  startup_paths b env; vm_compute; reflexivity.
Qed.

(** ** Configuration paths *)

(** C9.  Whatever the three command-line paths are, the key-value service
    is constructed with the engine-specific path when that flag is not
    empty, and with the primary path when it is empty; a run constructs the
    service once (in a build with the key-value engine, after the substrate
    initialised) or not at all. *)
Theorem eloqkv_config_fallback :
  forall (b : BuildConfig) (env : Environment),
  exists config : string,
    (FLAGS_eloqkv_config env <> EmptyString ->
     config = FLAGS_eloqkv_config env)
    /\ (FLAGS_eloqkv_config env = EmptyString -> config = FLAGS_config env)
    /\ service_configs (trace (snd (main b env))) =
       (if DataSubstrate_Init_result env && ELOQ_MODULE_ELOQKV b
        then [config] else []).
Proof.
  intros b env.
  exists (if String.eqb (FLAGS_eloqkv_config env) EmptyString
          then FLAGS_config env else FLAGS_eloqkv_config env).
  split; [|split].
  - destruct (String.eqb_spec (FLAGS_eloqkv_config env) EmptyString);
      congruence.
  - intros ->. reflexivity.
  - unfold service_configs.
    rewrite view_main by reflexivity.
    startup_paths b env; destruct kc; vm_compute; reflexivity.
Qed.

(** ** A failed substrate initialisation *)

(** C7.  When [DataSubstrate::Init] fails, [main] returns -1, so the exit
    status is not zero; the run contains no call that enables, constructs,
    initialises or starts an engine or its thread; and the run consists of
    collaborator calls only, so no global is assigned at all and every flag
    of the init state is still false at exit. *)
Theorem substrate_init_failure_short_circuits :
  forall (b : BuildConfig) (env : Environment),
    DataSubstrate_Init_result env = false ->
    fst (main b env) = -1
    /\ exit_status (fst (main b env)) <> 0
    /\ existsb engine_activity (trace (snd (main b env))) = false
    /\ snd (main b env) =
       fold_left (fun s e => call e s) (trace (snd (main b env)))
         initial_process
    /\ g_init_state (snd (main b env)) = initial_init_state.
Proof.
  intros b env H.
  rewrite main_cases.
  startup_paths b env; vm_compute; repeat split; try reflexivity;
    discriminate.
Qed.

(** The converged build on a substrate that refuses its configuration. *)
Lemma substrate_init_failure_short_circuits_witness :
  DataSubstrate_Init_result env_init_fails = false
  /\ fst (main converged env_init_fails) = -1.
Proof.
  split; [reflexivity|].
  apply (substrate_init_failure_short_circuits converged env_init_fails).
  reflexivity.
Defined.

(** ** Where a failed start-up leaves [main] *)

Lemma main_body_cases (b : BuildConfig) (env : Environment) :
  main_body b env initial_frame =
  match startup b env initial_frame with
  | (Fallthrough, f) =>
      (Fallthrough, with_globals (serving b env (globals f)) f)
  | out => out
  end.
Proof.
  unfold main_body, seq.
  destruct (startup b env initial_frame) as [[| |rc] f]; try reflexivity.
  apply wait_for_shutdown_signal_serving.
Qed.

(** [main] returns what a [return] statement gives it, and otherwise goes
    through the [cleanup] label. *)
Lemma main_through_cleanup (b : BuildConfig) (env : Environment) :
  match main_body b env initial_frame with
  | (Return rc, f) => main b env = (rc, globals f)
  | (_, f) => main b env = cleanup b f
  end.
Proof.
  unfold main.
  destruct (main_body b env initial_frame) as [[| |rc] f]; reflexivity.
Qed.

(** How start-up ends, by the first check that fails. *)
Lemma startup_outcome (b : BuildConfig) (env : Environment) :
  let out := startup b env initial_frame in
  match first_failure b env with
  | None => fst out = Fallthrough /\ return_code (snd out) = 0
  | Some SubstrateInit =>
      fst out = Return (-1) /\ return_code (snd out) = 0
      /\ stages (trace (globals (snd out))) = [LoggingShutdown]
  | Some _ => fst out = Goto_cleanup /\ return_code (snd out) = -1
  end.
Proof.
  cbv zeta.
  startup_paths b env; vm_compute; repeat split; reflexivity.
Qed.

(** C2, as the code has it.  A failure of the engine's first-phase
    initialisation, of the registration wait, of the substrate start, of the
    engine's second-phase start or of the server start sets [return_code] to
    -1 and jumps to the [cleanup] label, so [main] ends through the shared
    cleanup path and returns -1.  A failure of the substrate initialisation
    does not: after the error line [main] shuts logging down and returns -1
    on the spot, with [return_code] still 0 and [CleanupComponents] never
    called.  When no check fails, control falls through to the same
    [cleanup] label and [main] returns 0.  The exit status is 0 in the last
    case and not 0 in every other. *)
Theorem startup_failure_paths :
  forall (b : BuildConfig) (env : Environment),
    let out := main_body b env initial_frame in
    match first_failure b env with
    | None =>
        fst out = Fallthrough
        /\ main b env = cleanup b (snd out)
        /\ fst (main b env) = 0
        /\ exit_status (fst (main b env)) = 0
    | Some SubstrateInit =>
        fst out = Return (-1)
        /\ return_code (snd out) = 0
        /\ main b env = (-1, globals (snd out))
        /\ stages (trace (snd (main b env))) = [LoggingShutdown]
        /\ exit_status (fst (main b env)) <> 0
    | Some _ =>
        fst out = Goto_cleanup
        /\ return_code (snd out) = -1
        /\ main b env = cleanup b (snd out)
        /\ fst (main b env) = -1
        /\ exit_status (fst (main b env)) <> 0
    end.
Proof.
  intros b env out.
  pose proof (main_through_cleanup b env) as Hm.
  pose proof (startup_outcome b env) as Hs. cbv zeta in Hs.
  unfold out. rewrite main_body_cases in *.
  destruct (startup b env initial_frame) as [fl f]. cbn [fst snd] in Hs.
  destruct (first_failure b env) as [[]|].
  all: repeat match goal with H : _ /\ _ |- _ => destruct H end.
  all: subst fl; cbn [fst snd with_globals return_code globals] in *.
  all: rewrite Hm; cbn [fst snd cleanup].
  all: repeat split; try assumption; try reflexivity.
  all: cbn [with_globals return_code].
  all: try match goal with H : return_code _ = _ |- _ => rewrite H end.
  all: vm_compute; congruence.
Qed.

(** C2 as stated fails on a substrate-initialisation failure: [main] leaves
    by [return], not by [goto cleanup], and [return_code] is never set. *)
Lemma init_failure_skips_cleanup :
  first_failure converged env_init_fails = Some SubstrateInit
  /\ fst (main_body converged env_init_fails initial_frame) = Return (-1)
  /\ fst (main_body converged env_init_fails initial_frame) <> Goto_cleanup
  /\ return_code (snd (main_body converged env_init_fails initial_frame)) <> -1
  /\ ~ (forall (b : BuildConfig) (env : Environment) (step : StartupStep),
          first_failure b env = Some step ->
          fst (main_body b env initial_frame) = Goto_cleanup
          /\ return_code (snd (main_body b env initial_frame)) = -1).
Proof.
  assert (E : main_body converged env_init_fails initial_frame
              = (Return (-1),
                 snd (main_body converged env_init_fails initial_frame))).
  { vm_compute. reflexivity. }
  assert (R : return_code
                (snd (main_body converged env_init_fails initial_frame)) = 0).
  { vm_compute. reflexivity. }
  rewrite R. rewrite E. cbn [fst].
  split; [vm_compute; reflexivity|].
  split; [reflexivity|].
  split; [discriminate|].
  split; [discriminate|].
  intros H.
  destruct (H converged env_init_fails SubstrateInit eq_refl) as [H1 _].
  rewrite E in H1. discriminate H1.
Qed.

(** ** The order and the guards of the teardown stages *)

(** When start-up ends, by whatever way, the flags of the init state say
    what exists: the key-value flag is set exactly when the service pointer
    is tracked, and the relational flag exactly when the thread is
    joinable; the shutdown flag is untouched. *)
Lemma startup_flags_track_resources (b : BuildConfig) (env : Environment) :
  let s := globals (snd (startup b env initial_frame)) in
  eloqkv_init (g_init_state s) = non_null (eloqkv_service_ptr (g_init_state s))
  /\ eloqsql_thread_started (g_init_state s) = joinable (g_eloqsql_thread s)
  /\ g_shutdown_requested s = false.
Proof.
  cbv zeta.
  startup_paths b env; vm_compute; repeat split; reflexivity.
Qed.

(** C5, as the code has it.  From every frame at the [cleanup] label, in
    every build, the teardown calls come in the order substrate shutdown,
    key-value stop, relational stop, relational join, logging shutdown, and:
    the substrate is shut down iff [data_substrate_init] is true on entry;
    the key-value service is stopped iff the engine is compiled in,
    [eloqkv_init] is true and the tracked service pointer is not null; the
    relational engine is asked to shut down iff it is compiled in and
    [eloqsql_thread_started] is true, and its thread is then joined iff it
    is joinable; logging is shut down by the caller iff the build has glog
    logging. *)
Theorem cleanup_stage_order :
  forall (b : BuildConfig) (f : Frame),
    let s := globals f in
    let i := g_init_state s in
    trace (snd (cleanup b f)) =
      trace s ++ CleanupComponents_events b s ++ logging_shutdown b
    /\ stages (CleanupComponents_events b s ++ logging_shutdown b) =
       (if data_substrate_init i then [SubstrateShutdown] else [])
       ++ (if ELOQ_MODULE_ELOQKV b && eloqkv_init i
              && non_null (eloqkv_service_ptr i)
           then [KeyValueStop] else [])
       ++ (if ELOQ_MODULE_ELOQSQL b && eloqsql_thread_started i
           then RelationalStop
                :: (if joinable (g_eloqsql_thread s)
                    then [RelationalJoin] else [])
           else [])
       ++ (if BRPC_WITH_GLOG b then [LoggingShutdown] else []).
Proof.
  intros b f s i. split; [apply cleanup_trace|].
  subst i s. destruct f as [s rc p o]. cbn [globals].
  destruct b as [[] [] doc []]; each_process s; reflexivity.
Qed.

(** C5 as stated fails where [eloqkv_init] is true and the tracked pointer
    is null: the flag is true on entry and the key-value stage does not run,
    only the substrate is shut down. *)
Lemma flag_without_pointer_skips_stop :
  eloqkv_init (g_init_state flag_without_pointer) = true
  /\ CleanupComponents_events converged flag_without_pointer =
     [EvLog INFO [Str "Shutting down DataSubstrate"];
      EvDataSubstrateShutdown;
      EvLog INFO [Str "DataSubstrate shut down"]]
  /\ ~ (forall (b : BuildConfig) (s : Process),
          ELOQ_MODULE_ELOQKV b = true ->
          (In KeyValueStop (stages (CleanupComponents_events b s))
           <-> eloqkv_init (g_init_state s) = true)).
Proof.
  split; [reflexivity|].
  split; [reflexivity|].
  intros H.
  destruct (H converged flag_without_pointer eq_refl) as [_ H2].
  specialize (H2 eq_refl). vm_compute in H2.
  repeat destruct H2 as [H2|H2]; try discriminate H2; exact H2.
Qed.

(** ** The relational engine's thread *)

(** C6.  In a build with the relational engine: whenever the init state
    says the thread was started and the thread object holds the running
    thread, [CleanupComponents] calls [shutdown_mysqld] and then joins the
    thread, and when it returns the thread is no longer joinable and the
    flag is cleared.  In every run of [main] in which the substrate
    initialised, the thread is spawned once, asked to shut down once and
    joined once, in that order, and is not joinable when [main] returns;
    this covers the run in which the registration wait times out. *)
Theorem relational_stage_joins :
  forall (b : BuildConfig),
    ELOQ_MODULE_ELOQSQL b = true ->
    (forall s : Process,
        eloqsql_thread_started (g_init_state s) = true ->
        g_eloqsql_thread s = thread_mysqld_main ->
        thread_events (CleanupComponents_events b s) =
          [EvShutdownMysqld; EvThreadJoin]
        /\ trace (CleanupComponents b s) =
           trace s ++ CleanupComponents_events b s
        /\ g_eloqsql_thread (CleanupComponents b s) = not_a_thread
        /\ eloqsql_thread_started (g_init_state (CleanupComponents b s))
           = false)
    /\ (forall env : Environment,
           DataSubstrate_Init_result env = true ->
           thread_events (trace (snd (main b env))) =
             [EvThreadSpawn; EvShutdownMysqld; EvThreadJoin]
           /\ g_eloqsql_thread (snd (main b env)) = not_a_thread
           /\ (first_failure b env = Some RegistrationWait ->
               fst (main b env) = -1)).
Proof.
  intros b Hb. split.
  - intros s Hstarted Hthread.
    split; [|split; [apply CleanupComponents_trace|]].
    + destruct b as [[] sql doc glog]; cbn in Hb; subst sql;
        each_process s; try discriminate; reflexivity.
    + destruct b as [[] sql doc glog]; cbn in Hb; subst sql;
        each_process s; try discriminate; split; reflexivity.
  - intros env Hinit. split; [|split].
    + unfold thread_events. rewrite view_main by reflexivity.
      startup_paths b env; vm_compute; reflexivity.
    + change (g_eloqsql_thread (snd (main b env)))
        with (snd (resources (snd (main b env)))).
      rewrite main_resources.
      startup_paths b env; vm_compute; reflexivity.
    + intros Hfail. rewrite main_return_code.
      startup_paths b env; vm_compute; reflexivity.
Qed.

(** The converged build when an engine never registers. *)
Lemma relational_stage_joins_witness :
  ELOQ_MODULE_ELOQSQL converged = true
  /\ DataSubstrate_Init_result env_wait_times_out = true
  /\ first_failure converged env_wait_times_out = Some RegistrationWait
  /\ thread_events (trace (snd (main converged env_wait_times_out))) =
     [EvThreadSpawn; EvShutdownMysqld; EvThreadJoin]
  /\ fst (main converged env_wait_times_out) = -1.
Proof.
  split; [reflexivity|].
  split; [reflexivity|].
  split; [reflexivity|].
  destruct (relational_stage_joins converged eq_refl) as [_ H].
  destruct (H env_wait_times_out eq_refl) as [H1 [_ H3]].
  split; [exact H1|].
  apply H3. reflexivity.
Defined.

(** ** Stopping the key-value service after its ownership moved *)

(** C3, evaluated.  In the converged build with every collaborator
    succeeding, start-up ends with [g_eloqkv_service] released (null), the
    service held by the server options, and [g_init_state] still carrying
    both [eloqkv_init] and the raw pointer to that service; from that state
    [CleanupComponents] calls [Stop] on the released service, and so does the
    full run. *)
Theorem stop_after_ownership_transfer :
  let f := snd (startup converged env_all_ok initial_frame) in
  fst (startup converged env_all_ok initial_frame) = Fallthrough
  /\ g_eloqkv_service (globals f) = None
  /\ redis_service (eloqkv_options f) = Some (new_service env_all_ok)
  /\ eloqkv_init (g_init_state (globals f)) = true
  /\ eloqkv_service_ptr (g_init_state (globals f)) =
     Some (new_service env_all_ok)
  /\ CleanupComponents_events converged (globals f) =
     [EvLog INFO [Str "Shutting down DataSubstrate"];
      EvDataSubstrateShutdown;
      EvLog INFO [Str "DataSubstrate shut down"];
      EvLog INFO [Str "Stopping EloqKV service"];
      EvServiceStop (new_service env_all_ok);
      EvLog INFO [Str "EloqKV service stopped"];
      EvServerDelete (new_server env_all_ok);
      EvLog INFO [Str "Shutting down EloqSQL server"];
      EvShutdownMysqld;
      EvLog INFO [Str "Joining EloqSQL thread"];
      EvThreadJoin;
      EvLog INFO [Str "EloqSQL thread joined"]]
  /\ stages (trace (snd (main converged env_all_ok))) =
     [SubstrateShutdown; KeyValueStop; RelationalStop; RelationalJoin;
      LoggingShutdown].
Proof.
  vm_compute. repeat split; reflexivity.
Qed.

(** ** Waiting for the shutdown trigger *)

Lemma CleanupComponents_events_never_block (b : BuildConfig) (s : Process) :
  existsb blocking_call (CleanupComponents_events b s) = false.
Proof.
  each_build b; each_process s; reflexivity.
Qed.

Lemma SignalHandler_events_never_block (b : BuildConfig) (signal : Z)
  (s : Process) :
  existsb blocking_call (SignalHandler_events b signal s) = false.
Proof.
  rewrite SignalHandler_stages.
  destruct (g_shutdown_requested s); [reflexivity|].
  cbn [existsb blocking_call orb]. rewrite existsb_app.
  now rewrite CleanupComponents_events_never_block.
Qed.

Lemma logging_shutdown_never_blocks (b : BuildConfig) :
  existsb blocking_call (logging_shutdown b) = false.
Proof.
  unfold logging_shutdown. destruct (BRPC_WITH_GLOG b); reflexivity.
Qed.

(** C8.  In a build with the key-value engine (the builds the file compiles
    in), when no check of start-up fails, control reaches the end of
    start-up by falling through, with nothing torn down and no blocking call
    made so far; [main] then calls [RunUntilAskedToQuit] on the server, once,
    and every teardown action of the run, the substrate shutdown first,
    comes after that call.  [main] then returns 0. *)
Theorem main_waits_for_shutdown_trigger :
  forall (b : BuildConfig) (env : Environment),
    ELOQ_MODULE_ELOQKV b = true ->
    first_failure b env = None ->
    let s := globals (snd (startup b env initial_frame)) in
    fst (startup b env initial_frame) = Fallthrough
    /\ fst (main_body b env initial_frame) = Fallthrough
    /\ stages (trace s) = []
    /\ existsb blocking_call (trace s) = false
    /\ (exists rest : list Event,
          trace (snd (main b env)) =
          trace s ++ EvRunUntilAskedToQuit (new_server env) :: rest
          /\ existsb blocking_call rest = false
          /\ stages rest = stages (trace (snd (main b env)))
          /\ hd_error (stages rest) = Some SubstrateShutdown)
    /\ fst (main b env) = 0.
Proof.
  intros b env Hkv Hok s.
  assert (H : fst (startup b env initial_frame) = Fallthrough
              /\ g_eloqkv_server s = Some (new_server env)
              /\ stages (trace s) = []
              /\ existsb blocking_call (trace s) = false
              /\ return_code (snd (startup b env initial_frame)) = 0).
  { subst s. startup_paths b env; vm_compute; repeat split; reflexivity. }
  destruct H as [Hfl [Hsrv [Hst [Hnb Hrc]]]].
  assert (Hhd : hd_error (stages (trace (snd (main b env))))
                = Some SubstrateShutdown).
  { clear - Hkv Hok. unfold stages. rewrite view_main by reflexivity.
    startup_paths b env; vm_compute; reflexivity. }
  assert (Hrest : exists rest : list Event,
             trace (snd (main b env)) =
             trace s ++ EvRunUntilAskedToQuit (new_server env) :: rest
             /\ existsb blocking_call rest = false).
  { rewrite main_cases. subst s.
    destruct (startup b env initial_frame) as [fl f]. cbn [fst snd] in *.
    subst fl. rewrite cleanup_trace. cbn [with_globals globals].
    unfold serving. rewrite Hkv, Hsrv, deliver_first.
    destruct (signals_while_serving env) as [|signal later].
    - cbn [call trace]. rewrite <- app_assoc. cbn [app].
      eexists. split; [reflexivity|].
      rewrite existsb_app, CleanupComponents_events_never_block.
      apply logging_shutdown_never_blocks.
    - rewrite SignalHandler_trace. cbn [call trace].
      rewrite <- !app_assoc. cbn [app].
      eexists. split; [reflexivity|].
      rewrite !existsb_app, SignalHandler_events_never_block,
        CleanupComponents_events_never_block.
      apply logging_shutdown_never_blocks. }
  destruct Hrest as [rest [Htrace Hblock]].
  assert (Hstages : stages rest = stages (trace (snd (main b env)))).
  { rewrite Htrace. unfold stages in *.
    rewrite flat_map_app, Hst. reflexivity. }
  split; [exact Hfl|].
  split.
  { rewrite main_body_cases.
    destruct (startup b env initial_frame) as [fl f]. cbn [fst] in Hfl.
    subst fl. reflexivity. }
  split; [exact Hst|].
  split; [exact Hnb|].
  split.
  { exists rest. repeat split; try assumption.
    rewrite Hstages. exact Hhd. }
  rewrite main_return_code.
  destruct (startup b env initial_frame) as [fl f]. cbn [fst snd] in *.
  subst fl. exact Hrc.
Qed.

(** The converged build, every collaborator succeeding, two signals while
    the server runs. *)
Lemma main_waits_for_shutdown_trigger_witness :
  ELOQ_MODULE_ELOQKV converged = true
  /\ first_failure converged env_all_ok = None
  /\ fst (main converged env_all_ok) = 0.
Proof.
  split; [reflexivity|].
  split; [vm_compute; reflexivity|].
  apply (main_waits_for_shutdown_trigger converged env_all_ok).
  - reflexivity.
  - vm_compute. reflexivity.
Defined.

(** ** The run as a whole *)

(** X1.  In every run of [main], whatever signals are handled while the
    server runs, every teardown action happens at most once and in one
    order.  After a successful substrate initialisation the substrate is
    shut down once; the key-value service is stopped once iff the engine is
    compiled in and its first-phase initialisation succeeded; the relational
    engine is stopped and joined once iff it is compiled in; logging is shut
    down last iff the build has glog logging.  After a failed substrate
    initialisation the only teardown action is the logging shutdown, in any
    build. *)
Theorem main_teardown_once :
  forall (b : BuildConfig) (env : Environment),
    stages (trace (snd (main b env))) =
    if DataSubstrate_Init_result env then
      [SubstrateShutdown]
      ++ (if ELOQ_MODULE_ELOQKV b && RedisServiceImpl_Init_result env
          then [KeyValueStop] else [])
      ++ (if ELOQ_MODULE_ELOQSQL b
          then [RelationalStop; RelationalJoin] else [])
      ++ (if BRPC_WITH_GLOG b then [LoggingShutdown] else [])
    else [LoggingShutdown].
Proof.
  intros b env. unfold stages.
  rewrite view_main by reflexivity.
  startup_paths b env; vm_compute; reflexivity.
Qed.

Lemma main_resources_initial (b : BuildConfig) (env : Environment) :
  resources (snd (main b env)) = resources initial_process.
Proof.
  rewrite main_resources.
  startup_paths b env; vm_compute; reflexivity.
Qed.

(** X2.  When [main] returns, by whatever path and in whatever build, the
    init state is back to all flags false with no tracked pointer, both
    key-value handles are null and the thread object is not joinable. *)
Theorem main_releases_everything :
  forall (b : BuildConfig) (env : Environment),
    g_init_state (snd (main b env)) = initial_init_state
    /\ g_eloqkv_server (snd (main b env)) = None
    /\ g_eloqkv_service (snd (main b env)) = None
    /\ g_eloqsql_thread (snd (main b env)) = not_a_thread.
Proof.
  intros b env.
  pose proof (main_resources_initial b env) as H.
  unfold resources in H. cbn in H.
  injection H as H1 H2 H3 H4. repeat split; assumption.
Qed.

(** X3.  In every run the server and the service are made at most once and
    only in a build with the key-value engine, after the substrate
    initialised.  The service is stopped at most once, and before anything
    is deleted.  [main] deletes the service itself exactly when it never
    released it into the server options (a failure before the release);
    it deletes the server exactly once, last. *)
Theorem object_lifetimes :
  forall (b : BuildConfig) (env : Environment),
    lifetimes (trace (snd (main b env))) =
    if DataSubstrate_Init_result env && ELOQ_MODULE_ELOQKV b then
      [Made (new_server env); Made (new_service env)]
      ++ (if RedisServiceImpl_Init_result env
          then [Stopped (new_service env)] else [])
      ++ (if RedisServiceImpl_Init_result env
             && WaitForEnabledEnginesRegistered_result env
             && DataSubstrate_Start_result env
             && RedisServiceImpl_Start_result env
          then [] else [Deleted (new_service env)])
      ++ [Deleted (new_server env)]
    else [].
Proof.
  intros b env. unfold lifetimes.
  rewrite view_main by reflexivity.
  startup_paths b env; vm_compute; reflexivity.
Qed.

(** X4.  In every run the lifecycle calls come in one order, each at most
    once: substrate init, enabling and launching the engines, the
    registration barrier, substrate start, the second-phase start, the
    server start, and then the teardown actions.  Each step is attempted
    exactly when the step before it was attempted and succeeded: the engines
    enabled are those compiled in (EloqDoc never), the barrier is reached iff
    start-up got past the first phase, [DataSubstrate::Start] is called iff
    the barrier was reached and returned true, the service's second-phase
    [Start] iff the engine is compiled in and the substrate start returned
    true, and the server's [Start] iff that second phase returned true. *)
Theorem lifecycle_order :
  forall (b : BuildConfig) (env : Environment),
    let ms := milestones (trace (snd (main b env))) in
    increasing (map rank ms) = true
    /\ (forall kind : TableEngine,
          reached (AtEnable kind) ms =
          DataSubstrate_Init_result env && compiled b kind)
    /\ reached AtBarrier ms =
       DataSubstrate_Init_result env
       && (negb (ELOQ_MODULE_ELOQKV b) || RedisServiceImpl_Init_result env)
    /\ reached AtSubstrateStart ms =
       reached AtBarrier ms && WaitForEnabledEnginesRegistered_result env
    /\ reached AtServiceStart ms =
       reached AtSubstrateStart ms && ELOQ_MODULE_ELOQKV b
       && DataSubstrate_Start_result env
    /\ reached AtServerStart ms =
       reached AtServiceStart ms && RedisServiceImpl_Start_result env.
Proof.
  intros b env ms. subst ms. unfold milestones.
  rewrite view_main by reflexivity.
  split; [|split].
  - startup_paths b env; vm_compute; reflexivity.
  - intros kind. startup_paths b env; destruct kind; vm_compute; reflexivity.
  - startup_paths b env; vm_compute; repeat split; reflexivity.
Qed.

(** X5.  On the main thread, a start-up that fails logs exactly one line
    at severity ERROR, and logs it before any teardown action; a start-up
    that succeeds logs none there, and the shutdown controller never logs
    one.  The relational thread, which runs exactly when the substrate
    initialised in a build with that engine, logs one ERROR line of its own
    exactly when [mysqld_main] returns non-zero.  So the ERROR lines of a
    whole run number one for a failed start-up plus one for a failed
    [mysqld_main]: none, one or two. *)
Theorem failure_is_logged_before_teardown :
  forall (b : BuildConfig) (env : Environment) (result : Z),
    let run := trace (snd (main b env)) in
    let spawned := DataSubstrate_Init_result env && ELOQ_MODULE_ELOQSQL b in
    diagnosis run =
      (match first_failure b env with
       | Some _ => [None]
       | None => []
       end) ++ map Some (stages run)
    /\ thread_events run =
       (if spawned
        then [EvThreadSpawn; EvShutdownMysqld; EvThreadJoin] else [])
    /\ diagnosis (eloqsql_thread_body result) =
       (if result =? 0 then [] else [None])
    /\ (error_lines run
        + (if spawned then error_lines (eloqsql_thread_body result) else 0)
        = (match first_failure b env with
           | Some _ => 1
           | None => 0
           end)
          + (if spawned && negb (result =? 0)%Z then 1 else 0))%nat.
Proof.
  intros b env result run spawned. subst run spawned.
  split; [|split; [|split]].
  - unfold diagnosis, stages.
    rewrite !view_main by reflexivity.
    startup_paths b env; vm_compute; reflexivity.
  - unfold thread_events. rewrite view_main by reflexivity.
    startup_paths b env; vm_compute; reflexivity.
  - unfold eloqsql_thread_body. destruct (result =? 0); reflexivity.
  - unfold error_lines, eloqsql_thread_body.
    rewrite view_main by reflexivity.
    destruct (result =? 0);
      startup_paths b env; vm_compute; reflexivity.
Qed.

(** X6.  A signal that arrives once [main] is past its cleanup finds nothing
    to tear down: whether or not the shutdown flag is already set, the
    handler shuts down nothing, stops nothing, joins nothing, and leaves
    every handle null. *)
Theorem late_signal_finds_nothing :
  forall (b : BuildConfig) (env : Environment) (signal : Z),
    stages (SignalHandler_events b signal (snd (main b env))) = []
    /\ resources (SignalHandler b signal (snd (main b env))) =
       resources initial_process.
Proof.
  intros b env signal.
  pose proof (main_resources_initial b env) as H.
  assert (He : CleanupComponents_events b (snd (main b env)) = []
               /\ resources (CleanupComponents b (snd (main b env))) =
                  resources initial_process).
  { destruct (CleanupComponents_resources b _ _ H) as [H1 H2].
    rewrite H1, H2. each_build b; split; reflexivity. }
  destruct He as [He Hr].
  rewrite SignalHandler_stages, SignalHandler_resources.
  destruct (g_shutdown_requested (snd (main b env))).
  - split; [reflexivity|exact H].
  - rewrite He. split; [reflexivity|exact Hr].
Qed.

(** ** What has no effect *)

Lemma CleanupComponents_with_eloqdoc (doc : bool) (b : BuildConfig)
  (s : Process) :
  CleanupComponents (with_eloqdoc doc b) s = CleanupComponents b s.
Proof. destruct b; reflexivity. Qed.

Lemma SignalHandler_with_eloqdoc (doc : bool) (b : BuildConfig) (signal : Z)
  (s : Process) :
  SignalHandler (with_eloqdoc doc b) signal s = SignalHandler b signal s.
Proof.
  destruct (g_shutdown_requested s) eqn:E.
  - now rewrite !SignalHandler_requested.
  - rewrite !SignalHandler_fresh by exact E.
    now rewrite CleanupComponents_with_eloqdoc.
Qed.

Lemma deliver_with_eloqdoc (doc : bool) (b : BuildConfig) (signals : list Z)
  (s : Process) :
  deliver (with_eloqdoc doc b) signals s = deliver b signals s.
Proof.
  unfold deliver. revert s.
  induction signals as [|x xs IH]; intros s; cbn [fold_left].
  - reflexivity.
  - now rewrite SignalHandler_with_eloqdoc, IH.
Qed.

(** X7.  Defining [ELOQ_MODULE_ELOQDOC] changes nothing: [main], the signal
    handler and the shutdown controller behave exactly as without it, so no
    document engine is ever enabled, started or stopped. *)
Theorem eloqdoc_symbol_is_inert :
  forall (doc : bool) (b : BuildConfig),
    (forall env : Environment, main (with_eloqdoc doc b) env = main b env)
    /\ (forall (signal : Z) (s : Process),
          SignalHandler (with_eloqdoc doc b) signal s =
          SignalHandler b signal s)
    /\ (forall s : Process,
          CleanupComponents (with_eloqdoc doc b) s = CleanupComponents b s).
Proof.
  intros doc b. split; [|split].
  - intros env. rewrite !main_cases.
    assert (Hs : startup (with_eloqdoc doc b) env initial_frame =
                 startup b env initial_frame).
    { destruct doc; startup_paths b env; vm_compute; reflexivity. }
    rewrite Hs.
    destruct (startup b env initial_frame) as [[| |rc] f].
    + unfold cleanup, serving, with_globals. cbn [globals return_code].
      rewrite CleanupComponents_with_eloqdoc.
      destruct b as [kv sql d glog]; cbn [with_eloqdoc ELOQ_MODULE_ELOQKV
        ELOQ_MODULE_ELOQSQL BRPC_WITH_GLOG].
      destruct kv; [|reflexivity].
      destruct (g_eloqkv_server (globals f)); [|reflexivity].
      change (mkBuild true sql doc glog)
        with (with_eloqdoc doc (mkBuild true sql d glog)).
      now rewrite deliver_with_eloqdoc.
    + unfold cleanup. rewrite CleanupComponents_with_eloqdoc.
      destruct b; reflexivity.
    + reflexivity.
  - intros signal s. apply SignalHandler_with_eloqdoc.
  - intros s. apply CleanupComponents_with_eloqdoc.
Qed.

(** X8.  The EloqSQL configuration flag is never read: a run of [main] is
    the same, call for call, whatever [--eloqsql_config] holds. *)
Theorem eloqsql_config_is_unused :
  forall (b : BuildConfig) (env : Environment) (path : string),
    main b (with_eloqsql_config path env) = main b env.
Proof.
  intros b env path. rewrite !main_cases.
  assert (Hs : startup b (with_eloqsql_config path env) initial_frame =
               startup b env initial_frame).
  { destruct env; reflexivity. }
  rewrite Hs.
  destruct (startup b env initial_frame) as [[| |rc] f]; try reflexivity.
Qed.

(** ** Strings and padded fields *)

Lemma append_assoc (a b c : string) :
  String.append (String.append a b) c = String.append a (String.append b c).
Proof.
  induction a as [|x a IH]; cbn; [reflexivity|now rewrite IH].
Qed.

Lemma length_append (a b : string) :
  String.length (String.append a b)
  = (String.length a + String.length b)%nat.
Proof.
  induction a as [|x a IH]; cbn; [reflexivity|now rewrite IH].
Qed.

Lemma append_not_empty (a b : string) :
  b <> EmptyString -> String.append a b <> EmptyString.
Proof.
  destruct a; cbn; [trivial|discriminate].
Qed.

Lemma length_replicate (n : nat) (c : ascii) :
  String.length (std.replicate n c) = n.
Proof.
  induction n as [|n IH]; cbn; [reflexivity|now rewrite IH].
Qed.

Lemma padded_no_width (c : ascii) (t : string) : std.padded c 0 t = t.
Proof.
  unfold std.padded.
  replace (Z.to_nat (0 - Z.of_nat (String.length t))) with O by lia.
  reflexivity.
Qed.

(** A field that fits its width has exactly that width. *)
Lemma length_padded (c : ascii) (w : nat) (t : string) :
  (String.length t <= w)%nat ->
  String.length (std.padded c (Z.of_nat w) t) = w.
Proof.
  intros H. unfold std.padded.
  rewrite length_append, length_replicate. lia.
Qed.

Lemma length_decimal_digits (fuel k : nat) (n : Z) :
  (1 <= k)%nat -> 0 <= n < 10 ^ Z.of_nat k ->
  (String.length (std.decimal_digits fuel n) <= k)%nat.
Proof.
  revert k n. induction fuel as [|fuel IH]; intros k n Hk Hn; cbn.
  - lia.
  - rewrite length_append. cbn.
    destruct (Z.ltb_spec n 10) as [Hlt|Hge]; cbn; [lia|].
    destruct k as [|[|k]]; [lia| |].
    + change (10 ^ Z.of_nat 1) with 10 in Hn. lia.
    + assert (Hdiv : 0 <= n / 10 < 10 ^ Z.of_nat (S k)).
      { replace (Z.of_nat (S (S k))) with (Z.succ (Z.of_nat (S k))) in Hn
          by lia.
        rewrite Z.pow_succ_r in Hn by lia.
        split; [apply Z.div_pos; lia|].
        apply Z.div_lt_upper_bound; lia. }
      specialize (IH (S k) (n / 10) ltac:(lia) Hdiv). lia.
Qed.

(** A number below [10 ^ k] prints in at most [k] characters. *)
Lemma length_decimal (k : nat) (n : Z) :
  (1 <= k)%nat -> 0 <= n < 10 ^ Z.of_nat k ->
  (String.length (std.decimal n) <= k)%nat.
Proof.
  intros Hk Hn. unfold std.decimal.
  destruct (Z.ltb_spec n 0); [lia|].
  now apply length_decimal_digits.
Qed.

Lemma length_field (c : ascii) (k : nat) (n : Z) :
  (1 <= k)%nat -> 0 <= n < 10 ^ Z.of_nat k ->
  String.length (std.padded c (Z.of_nat k) (std.decimal n)) = k.
Proof.
  intros Hk Hn. apply length_padded, length_decimal; assumption.
Qed.

(** ** The prefix of a log line *)

(** X9.  On a stream with no pending width, and for a time whose fields
    fit their columns, [CustomPrefix] appends the bracketed time, level,
    thread and source position after what the stream already holds, and the
    time stamp between [[time ] and the closing bracket is always 26
    characters long.  Its date and time fields are padded with whatever fill
    character the stream had on entry; only the microseconds are always
    padded with zeros.  The stream is left with fill character [0] and no
    pending width. *)
Theorem CustomPrefix_fixed_width :
  forall (s : std.ostream) (l : google.LogMessageInfo),
    std.width s = 0 ->
    0 <= 1900 + google.year (google.time l) < 10000 ->
    0 <= 1 + google.month (google.time l) < 100 ->
    0 <= google.day (google.time l) < 100 ->
    0 <= google.hour (google.time l) < 100 ->
    0 <= google.min (google.time l) < 100 ->
    0 <= google.sec (google.time l) < 100 ->
    0 <= google.usec (google.time l) < 1000000 ->
    let field := fun (c : ascii) (w : Z) (n : Z) =>
                   std.padded c w (std.decimal n) in
    let c := std.fill s in
    let t := google.time l in
    let stamp :=
      String.append (field c 4 (1900 + google.year t))
        (String "-" (String.append (field c 2 (1 + google.month t))
        (String "-" (String.append (field c 2 (google.day t))
        (String "T" (String.append (field c 2 (google.hour t))
        (String ":" (String.append (field c 2 (google.min t))
        (String ":" (String.append (field c 2 (google.sec t))
        (String "." (field "0"%char 6 (google.usec t)))))))))))))
    in
    std.str (CustomPrefix s l) =
      String.append (std.str s)
        (String.append "[time "
           (String.append stamp
              (String.append "] [level "
                 (String.append (google.severity l)
                    (String.append "] [thread "
                       (String.append (std.decimal (google.thread_id l))
                          (String.append "] ["
                             (String.append (google.filename l)
                                (String ":"
                                   (String.append
                                      (std.decimal (google.line_number l))
                                      "]"))))))))))
    /\ String.length stamp = 26%nat
    /\ std.fill (CustomPrefix s l) = "0"%char
    /\ std.width (CustomPrefix s l) = 0.
Proof.
  intros [c0 w b] [sev file line tid [Y M D h m sc us]].
  cbn [std.width std.fill std.str google.time google.year google.month
       google.day google.hour google.min google.sec google.usec
       google.severity google.filename google.thread_id google.line_number].
  intros -> HY HM HD Hh Hm Hs Hus.
  split; [|split; [|split; reflexivity]].
  - unfold CustomPrefix.
    cbn [std.insert std.width std.fill std.str google.time google.year
         google.month google.day google.hour google.min google.sec
         google.usec google.severity google.filename google.thread_id
         google.line_number].
    rewrite !padded_no_width.
    repeat (rewrite !append_assoc; cbn [String.append]).
    reflexivity.
  - repeat (rewrite length_append || cbn [String.length]).
    change 4 with (Z.of_nat 4). change 2 with (Z.of_nat 2).
    change 6 with (Z.of_nat 6).
    rewrite !length_field by (try lia; assumption).
    reflexivity.
Qed.

(** A November morning on a stream that still has its blank fill. *)
Lemma CustomPrefix_fixed_width_witness :
  std.width fresh_stream = 0
  /\ std.str (CustomPrefix fresh_stream sample_message) =
     "[time 2026-11- 2T 9: 5: 7.001234] [level INFO] [thread 4711] [converged_main.cpp:152]"
  /\ std.fill (CustomPrefix fresh_stream sample_message) = "0"%char.
Proof.
  split; [reflexivity|].
  destruct (CustomPrefix_fixed_width fresh_stream sample_message
              eq_refl
              ltac:(cbn; lia) ltac:(cbn; lia) ltac:(cbn; lia)
              ltac:(cbn; lia) ltac:(cbn; lia) ltac:(cbn; lia)
              ltac:(cbn; lia))
    as [H1 [_ [H3 _]]].
  split; [|exact H3]. rewrite H1. reflexivity.
Defined.

(** ** Setting glog up *)

(** X10.  After [InitGoogleLogging] exactly one kind of sink is selected.
    Logging stays on stderr only when [--logtostderr] was given with no log
    directory; then the host is neither looked at nor written to, the only
    call is [google::InitGoogleLogging], and the levels and the file-name
    prefix are left alone.  In every other case, [--logtostderr] together
    with a log directory included, logging goes to files only: the three
    console flags are all off, the log directory is not empty, every
    severity is logged, unbuffered, with a file header. *)
Theorem logging_sink_is_exclusive :
  forall (h : Host) (f : LoggingFlags),
    let f' := fst (InitGoogleLogging h f) in
    let calls := snd (InitGoogleLogging h f) in
    FLAGS_alsologtostderr f' = false
    /\ FLAGS_logtostdout f' = false
    /\ FLAGS_logtostderr f' = stderr_only f
    /\ (if stderr_only f
        then calls = [GoogleInitGoogleLogging (argv0 h)]
             /\ FLAGS_log_dir f' = EmptyString
             /\ FLAGS_minloglevel f' = FLAGS_minloglevel f
             /\ FLAGS_logbuflevel f' = FLAGS_logbuflevel f
             /\ FLAGS_log_file_header f' = FLAGS_log_file_header f
             /\ FLAGS_log_file_name_prefix f' = FLAGS_log_file_name_prefix f
        else FLAGS_log_dir f' <> EmptyString
             /\ FLAGS_minloglevel f' = 0
             /\ FLAGS_logbuflevel f' = -1
             /\ FLAGS_log_file_header f' = true).
Proof.
  intros h [tostderr also tostdout dir minlevel buflevel header prefix].
  unfold stderr_only, InitGoogleLogging.
  cbn [FLAGS_logtostderr FLAGS_log_dir FLAGS_minloglevel FLAGS_logbuflevel
       FLAGS_log_file_header FLAGS_log_file_name_prefix].
  destruct (String.eqb_spec dir EmptyString) as [->|Hdir];
    destruct tostderr; cbn [andb].
  - cbn. repeat split; reflexivity.
  - destruct (directory_exists h _); cbn; repeat split; try reflexivity;
      apply append_not_empty; discriminate.
  - destruct (directory_exists h _); cbn; repeat split; try reflexivity;
      exact Hdir.
  - destruct (directory_exists h _); cbn; repeat split; try reflexivity;
      exact Hdir.
Qed.

(** X11.  Unless logging stays on stderr, the set-up prepares the log
    directory before it points glog at it: it checks that one directory,
    asks for its creation exactly when it is missing, and only then sets the
    INFO, WARNING and ERROR destinations, all in that directory under one
    file-name prefix, then the three symlinks, and initialises glog last.
    The directory is the one given, or [logs] two levels above the
    executable when none was given; the prefix is the value of
    [GLOG_log_file_name_prefix] when that variable is set, and the flag
    otherwise. *)
Theorem log_directory_is_prepared_first :
  forall (h : Host) (f : LoggingFlags),
    stderr_only f = false ->
    let f' := fst (InitGoogleLogging h f) in
    let calls := snd (InitGoogleLogging h f) in
    calls =
      preparation calls
      ++ [SetLogDestination google.INFO
            (String.append (log_file_stem f') "INFO.");
          SetLogDestination google.WARNING
            (String.append (log_file_stem f') "WARNING.");
          SetLogDestination google.ERROR
            (String.append (log_file_stem f') "ERROR.");
          SetLogSymlink google.INFO (FLAGS_log_file_name_prefix f');
          SetLogSymlink google.WARNING (FLAGS_log_file_name_prefix f');
          SetLogSymlink google.ERROR (FLAGS_log_file_name_prefix f');
          GoogleInitGoogleLogging (argv0 h)]
    /\ checked calls = [FLAGS_log_dir f']
    /\ created calls =
       (if directory_exists h (FLAGS_log_dir f')
        then [] else [FLAGS_log_dir f'])
    /\ FLAGS_log_dir f' =
       (if String.eqb (FLAGS_log_dir f) EmptyString
        then String.append
               (parent_path h (parent_path h (proc_self_exe h))) "/logs"
        else FLAGS_log_dir f)
    /\ FLAGS_log_file_name_prefix f' =
       match getenv h "GLOG_log_file_name_prefix" with
       | Some value => value
       | None => FLAGS_log_file_name_prefix f
       end.
Proof.
  intros h [tostderr also tostdout dir minlevel buflevel header prefix].
  unfold stderr_only, InitGoogleLogging, log_file_stem, preparation,
    checked, created.
  cbn [FLAGS_logtostderr FLAGS_log_dir FLAGS_minloglevel FLAGS_logbuflevel
       FLAGS_log_file_header FLAGS_log_file_name_prefix].
  intros H. rewrite H.
  destruct (String.eqb dir EmptyString);
    destruct (directory_exists h _) eqn:E;
    cbn; rewrite ?E; repeat split; reflexivity.
Qed.

(** Both [--logtostderr] and a log directory: files win. *)
Lemma log_directory_is_prepared_first_witness :
  stderr_only flags_to_files = false
  /\ created (snd (InitGoogleLogging sample_host flags_to_files)) =
     ["/var/log/eloq"]
  /\ FLAGS_logtostderr (fst (InitGoogleLogging sample_host flags_to_files)) =
     false.
Proof.
  split; [reflexivity|].
  destruct (log_directory_is_prepared_first sample_host flags_to_files
              eq_refl) as [_ [_ [H _]]].
  split; [exact H|reflexivity].
Defined.

(** ** glog around the run *)

Lemma serving_trace (b : BuildConfig) (env : Environment) (s : Process) :
  exists tail : list Event, trace (serving b env s) = trace s ++ tail.
Proof.
  unfold serving.
  destruct (ELOQ_MODULE_ELOQKV b);
    [|exists []; now rewrite app_nil_r].
  destruct (g_eloqkv_server s) as [q|];
    [|exists []; now rewrite app_nil_r].
  rewrite deliver_first.
  destruct (signals_while_serving env) as [|signal later].
  - eexists. reflexivity.
  - rewrite SignalHandler_trace. cbn [call trace].
    rewrite <- app_assoc. eexists. reflexivity.
Qed.

Lemma main_trace_extends (b : BuildConfig) (env : Environment) :
  exists tail : list Event,
    trace (snd (main b env)) =
    trace (globals (snd (startup b env initial_frame))) ++ tail.
Proof.
  rewrite main_cases.
  destruct (startup b env initial_frame) as [[| |rc] f]; cbn [snd].
  - rewrite cleanup_trace. cbn [with_globals globals].
    destruct (serving_trace b env (globals f)) as [tail ->].
    rewrite <- app_assoc. eexists. reflexivity.
  - rewrite cleanup_trace. eexists. reflexivity.
  - exists []. now rewrite app_nil_r.
Qed.

(** X12.  In a build with glog logging, every run of [main] initialises
    glog exactly once, as its third call and before any log line, and shuts
    it down exactly once, as its very last call, whatever path the run takes
    and whatever signals arrive while the server runs. *)
Theorem glog_brackets_the_run :
  forall (b : BuildConfig) (env : Environment),
    BRPC_WITH_GLOG b = true ->
    flat_map glog_view (trace (snd (main b env))) = [true; false]
    /\ (exists rest : list Event,
          trace (snd (main b env)) =
          EvSetVersionString VERSION :: EvParseCommandLineFlags
          :: EvInitGoogleLogging :: rest)
    /\ (exists before : list Event,
          trace (snd (main b env)) = before ++ [EvShutdownGoogleLogging]).
Proof.
  intros b env Hglog. split; [|split].
  - rewrite view_main by reflexivity.
    startup_paths b env; vm_compute; reflexivity.
  - destruct (main_trace_extends b env) as [tail ->].
    exists (skipn 3 (trace (globals (snd (startup b env initial_frame))))
              ++ tail).
    change (EvSetVersionString VERSION :: EvParseCommandLineFlags
            :: EvInitGoogleLogging
            :: skipn 3 (trace (globals (snd (startup b env initial_frame))))
               ++ tail)
      with ((EvSetVersionString VERSION :: EvParseCommandLineFlags
             :: EvInitGoogleLogging
             :: skipn 3
                  (trace (globals (snd (startup b env initial_frame)))))
            ++ tail).
    f_equal.
    startup_paths b env; vm_compute; reflexivity.
  - rewrite main_cases.
    assert (Hret : match startup b env initial_frame with
                   | (Return _, f) => trace (globals f)
                   | _ => [EvShutdownGoogleLogging]
                   end =
                   match startup b env initial_frame with
                   | (Return _, f) =>
                       removelast (trace (globals f))
                       ++ [EvShutdownGoogleLogging]
                   | _ => [EvShutdownGoogleLogging]
                   end).
    { clear Hglog. startup_paths b env; vm_compute; reflexivity. }
    destruct (startup b env initial_frame) as [[| |rc] f]; cbn [snd].
    + rewrite cleanup_trace. unfold logging_shutdown. rewrite Hglog.
      rewrite app_assoc. eexists. reflexivity.
    + rewrite cleanup_trace. unfold logging_shutdown. rewrite Hglog.
      rewrite app_assoc. eexists. reflexivity.
    + eexists. exact Hret.
Qed.

(** The converged build, every collaborator succeeding. *)
Lemma glog_brackets_the_run_witness :
  BRPC_WITH_GLOG converged = true
  /\ flat_map glog_view (trace (snd (main converged env_all_ok))) =
     [true; false].
Proof.
  split; [reflexivity|].
  apply (glog_brackets_the_run converged env_all_ok). reflexivity.
Defined.
